(** * PasswordToolKit: a shallow embedding of the password toolkit

  The definitions follow the layout of the repository:
  - [JsString]  JavaScript strings, as lists of UTF-16 code units;
  - [RegExp]    a backtracking matcher for the regular expressions of
                [src/constants.js], after the ECMAScript pattern semantics;
  - [Constants] [regexps] and [patterns] of [src/constants.js];
  - [Js]        the fragment of JavaScript values and built-ins the library
                relies on ([typeof], [Reflect.has], relational comparison,
                [Array(len)], [Math.random]); a number is an IEEE 754
                binary64 value (a primitive float);
  - [Defaults]  [suggestions] and [qualities] of [src/defaults.js];
  - [Functions] the helpers of [src/functions.js];
  - [Toolkit]   the class [PasswordToolKit] of [src/index.js]:
                [constructor], [checkOptions], [generate], [evaluate];
  - [Statements] the vocabulary of the properties.

  The properties come next: the matcher ([RegExpFacts]), [evaluate]
  ([EvaluateFacts]), the constructor ([ConstructorFacts]), the comparisons
  of numbers ([NumberFacts]), [checkOptions] ([CheckOptionsFacts]) and
  [generate] ([GenerateFacts]). *)

From Stdlib Require Import String Ascii.
From Stdlib Require Import List Bool Arith NArith ZArith Lia Floats.
Import ListNotations.

Set Implicit Arguments.
Set Warnings "-register-all".

(* ================================================================== *)
(** ** JavaScript strings *)

Module JsString.

(** A code unit of a JavaScript string (0 .. 65535). *)
Definition code_unit := N.

Definition js_string := list code_unit.

(** The code units of an ASCII literal of the source. *)
Fixpoint str (s : string) : js_string :=
  match s with
  | EmptyString => []
  | String a rest => N_of_ascii a :: str rest
  end.

Definition between (lo hi c : code_unit) : bool :=
  (lo <=? c)%N && (c <=? hi)%N.
Arguments between (lo hi c)%_N_scope.

(** [starts_with w s]: what is left of [s] after its prefix [w], when [w] is
    a prefix of [s]. *)
Fixpoint starts_with (w s : js_string) : option js_string :=
  match w, s with
  | [], _ => Some s
  | a :: w', b :: s' => if (a =? b)%N then starts_with w' s' else None
  | _ :: _, [] => None
  end.

End JsString.
Import JsString.

(* ================================================================== *)
(** ** Regular expressions

  The patterns of the library use no flag, so matching is per code unit, is
  case sensitive and keeps no [lastIndex] between calls.  The syntax below is
  the part of the pattern grammar the library uses: one-code-unit atoms
  (class escapes, character classes, the dot), concatenation, quantifiers,
  the capturing group number 1 and the back reference [\1]. *)

Module RegExp.

Inductive regex : Type :=
| Atom (p : code_unit -> bool)
| Cat (r1 r2 : regex)
| Quant (r : regex) (min : nat) (max : option nat) (greedy : bool)
| Group (r : regex)
| Backref.

(** Character classes. *)
Definition digit (c : code_unit) : bool := between 48 57 c.          (* \d, [0-9] *)
Definition upper (c : code_unit) : bool := between 65 90 c.          (* [A-Z] *)
Definition lower (c : code_unit) : bool := between 97 122 c.         (* [a-z] *)
Definition letter (c : code_unit) : bool := upper c || lower c.      (* [A-Za-z] *)
Definition alnum (c : code_unit) : bool := letter c || digit c.      (* [A-Za-z\d] *)
Definition word (c : code_unit) : bool := alnum c || (c =? 95)%N.    (* \w *)
Definition non_word (c : code_unit) : bool := negb (word c).         (* \W *)
Definition non_word_or_underscore (c : code_unit) : bool :=          (* [\W_] *)
  non_word c || (c =? 95)%N.
Definition line_terminator (c : code_unit) : bool :=
  (c =? 10)%N || (c =? 13)%N || (c =? 8232)%N || (c =? 8233)%N.
Definition dot (c : code_unit) : bool := negb (line_terminator c).   (* . *)
(** [\s]: white space and line terminators. *)
Definition space (c : code_unit) : bool :=
  between 9 13 c || (c =? 32)%N || (c =? 160)%N || (c =? 5760)%N
  || between 8192 8202 c || (c =? 8232)%N || (c =? 8233)%N
  || (c =? 8239)%N || (c =? 8287)%N || (c =? 12288)%N || (c =? 65279)%N.

(** Quantifier shorthands. *)
Definition exactly (n : nat) (r : regex) : regex := Quant r n (Some n) true.   (* r{n} *)
Definition at_least (n : nat) (r : regex) : regex := Quant r n None true.      (* r{n,} *)
Definition plus (r : regex) : regex := Quant r 1 None true.                    (* r+ *)
Definition star (r : regex) : regex := Quant r 0 None true.                    (* r* *)
Definition star_lazy (r : regex) : regex := Quant r 0 None false.              (* r*? *)

Fixpoint has_group (r : regex) : bool :=
  match r with
  | Atom _ | Backref => false
  | Cat r1 r2 => has_group r1 || has_group r2
  | Quant r1 _ _ _ => has_group r1
  | Group _ => true
  end.

(** The state of a match is what is left of the input and the capture of
    group 1; a continuation says whether the rest of the pattern matches. *)
Definition capture := option js_string.
Definition continuation := js_string -> capture -> bool.
Definition matcher := js_string -> capture -> continuation -> bool.

(** RepeatMatcher.  An iteration that consumes nothing once the minimum is
    reached fails, so [min + length x] decreases at every iteration and the
    fuel [S (min + length x)] given by [compile] is never used up. *)
Fixpoint RepeatMatcher (fuel : nat) (m : matcher) (min : nat) (max : option nat)
    (greedy reset : bool) (x : js_string) (cap : capture) (c : continuation) : bool :=
  match fuel with
  | O => false
  | S fuel' =>
      match max with
      | Some O => c x cap
      | _ =>
          let d : continuation := fun y cap' =>
            if (min =? 0)%nat && (length y =? length x)%nat then false
            else RepeatMatcher fuel' m (pred min) (option_map pred max)
                   greedy reset y cap' c in
          let cap0 := if reset then None else cap in
          if negb (min =? 0)%nat then m x cap0 d
          else if greedy then m x cap0 d || c x cap
          else c x cap || m x cap0 d
      end
  end.

Fixpoint compile (r : regex) : matcher :=
  match r with
  | Atom p => fun x cap c =>
      match x with
      | ch :: y => p ch && c y cap
      | [] => false
      end
  | Cat r1 r2 => fun x cap c =>
      compile r1 x cap (fun y cap' => compile r2 y cap' c)
  | Quant r1 min max greedy => fun x cap c =>
      RepeatMatcher (S (min + length x)) (compile r1) min max greedy
        (has_group r1) x cap c
  | Group r1 => fun x cap c =>
      compile r1 x cap
        (fun y _ => c y (Some (firstn (length x - length y) x)))
  | Backref => fun x cap c =>
      match cap with
      | None => c x cap
      | Some w =>
          match starts_with w x with
          | Some y => c y cap
          | None => false
          end
      end
  end.

(** A matcher only ever continues on what is left of its input. *)
Definition continues_on_suffix (m : matcher) : Prop :=
  forall x cap (c c' : continuation),
    (forall y cap', length y <= length x -> c y cap' = c' y cap') ->
    m x cap c = m x cap c'.

(** A match starting at the first code unit of [x]. *)
Definition matches_at (r : regex) (x : js_string) : bool :=
  compile r x None (fun _ _ => true).

(** [RegExp.prototype.test]: the start index runs from 0 to the length of
    the string, and the first index with a match wins. *)
Fixpoint test (r : regex) (s : js_string) : bool :=
  matches_at r s ||
  match s with
  | [] => false
  | _ :: s' => test r s'
  end.

End RegExp.

(* ================================================================== *)
(** ** [src/constants.js] *)

Module Constants.
Import RegExp.

Module regexps.
Definition numbers : regex := Atom digit.                          (* /\d/ *)
Definition symbols : regex := Atom non_word_or_underscore.         (* /[\W_]/ *)
Definition uppercases : regex := Atom upper.                       (* /[A-Z]/ *)
Definition lowercases : regex := Atom lower.                       (* /[a-z]/ *)
Definition repeated : regex :=                                     (* /(.).*?\1/ *)
  Cat (Group (Atom dot)) (Cat (star_lazy (Atom dot)) Backref).
End regexps.

Definition pattern1 : regex := exactly 4 (Atom digit).               (* /\d{4}/ *)
Definition pattern2 : regex := exactly 6 (Atom digit).               (* /\d{6}/ *)
Definition pattern3 : regex := exactly 4 (Atom letter).              (* /[A-Za-z]{4}/ *)
Definition pattern4 : regex := exactly 6 (Atom letter).              (* /[A-Za-z]{6}/ *)
Definition pattern5 : regex :=                                       (* /([A-Za-z\d])\1{2,}/ *)
  Cat (Group (Atom alnum)) (at_least 2 Backref).
Definition pattern6 : regex :=                                       (* /[A-Za-z]+\d+[A-Za-z]*/ *)
  Cat (plus (Atom letter)) (Cat (plus (Atom digit)) (star (Atom letter))).
Definition pattern7 : regex :=                                       (* /[A-Za-z]*\d+[A-Za-z]+/ *)
  Cat (star (Atom letter)) (Cat (plus (Atom digit)) (plus (Atom letter))).
Definition pattern8 : regex :=                                       (* /([A-Za-z\d])\1{3,}/ *)
  Cat (Group (Atom alnum)) (at_least 3 Backref).

Definition patterns : list regex :=
  [pattern1; pattern2; pattern3; pattern4; pattern5; pattern6; pattern7; pattern8].

End Constants.

(* ================================================================== *)
(** ** JavaScript values and built-ins *)

Module Js.

(** Values.  An array is the list of its elements (no holes); an object is
    the list of its properties, the first binding of a name being the
    property.  Functions, symbols and big integers are not part of the
    model. *)
Inductive value : Type :=
| VUndefined
| VNull
| VBool (b : bool)
| VNumber (x : float)
| VString (s : js_string)
| VArray (elems : list value)
| VObject (props : list (string * value)).

Inductive error_kind : Type := TypeError | RangeError.

Record error : Type := { kind : error_kind; message : js_string }.

(** The outcome of a call: a returned value, a thrown error, or
    [Unmodelled] when the call needs a conversion that is outside the
    model (the numeric value of a string, an array or an object). *)
Inductive completion (A : Type) : Type :=
| Return (a : A)
| Throw (e : error)
| Unmodelled.
Arguments Return {A} a.
Arguments Throw {A} e.
Arguments Unmodelled {A}.

Definition bind {A B : Type} (c : completion A) (k : A -> completion B) : completion B :=
  match c with
  | Return a => k a
  | Throw e => Throw e
  | Unmodelled => Unmodelled
  end.

Definition of_option {A : Type} (o : option A) : completion A :=
  match o with
  | Some a => Return a
  | None => Unmodelled
  end.

(** The double quote, for the messages of the source that contain one. *)
Definition dq : string := String (ascii_of_nat 34) EmptyString.

Definition typeof (v : value) : string :=
  match v with
  | VUndefined => "undefined"
  | VNull => "object"
  | VBool _ => "boolean"
  | VNumber _ => "number"
  | VString _ => "string"
  | VArray _ => "object"
  | VObject _ => "object"
  end.

Definition isArray (v : value) : bool :=
  match v with
  | VArray _ => true
  | _ => false
  end.

Fixpoint lookup (name : string) (props : list (string * value)) : option value :=
  match props with
  | [] => None
  | (k, v) :: rest => if String.eqb k name then Some v else lookup name rest
  end.

(** [Reflect.has(target, name)], for the property names the library asks
    for ([size], the four flags, [suggestions], [qualities], [maximum]):
    none of them is inherited by a plain object or an array, so only own
    properties count.  A target that is not an object throws a TypeError
    (the message is the one of V8). *)
Definition Reflect_has (target : value) (name : string) : completion bool :=
  match target with
  | VObject props =>
      Return (match lookup name props with Some _ => true | None => false end)
  | VArray _ => Return false
  | _ => Throw {| kind := TypeError; message := str "Reflect.has called on non-object" |}
  end.

(** [target.name], read after [Reflect.has] has accepted [target]. *)
Definition Get (target : value) (name : string) : value :=
  match target with
  | VObject props =>
      match lookup name props with
      | Some v => v
      | None => VUndefined
      end
  | _ => VUndefined
  end.

Definition ToBoolean (v : value) : bool :=
  match v with
  | VUndefined | VNull => false
  | VBool b => b
  | VNumber x => negb (PrimFloat.eqb x 0 || PrimFloat.is_nan x)
  | VString s => negb (Nat.eqb (length s) 0)
  | VArray _ | VObject _ => true
  end.

(** [ToNumber], on the primitive values whose conversion needs no parsing. *)
Definition ToNumber (v : value) : option float :=
  match v with
  | VUndefined => Some nan
  | VNull => Some 0%float
  | VBool b => Some (if b then 1%float else 0%float)
  | VNumber x => Some x
  | VString _ | VArray _ | VObject _ => None
  end.

(** [a < b]: both operands become numbers (neither is a string in the
    modelled fragment) and a comparison with NaN is false. *)
Definition less_than (a b : value) : completion bool :=
  bind (of_option (ToNumber a)) (fun x =>
  bind (of_option (ToNumber b)) (fun y =>
  Return (PrimFloat.ltb x y))).

(** [a > b] is [b < a] with the operands still converted left to right;
    the conversions of the model have no effect, so the order is not
    visible. *)
Definition greater_than (a b : value) : completion bool :=
  bind (of_option (ToNumber a)) (fun x =>
  bind (of_option (ToNumber b)) (fun y =>
  Return (PrimFloat.ltb y x))).

(** The mathematical value of a number that is an integer in
    [0, 2^32 - 1]: the numbers [n] with [ToUint32(n) = n]. *)
Definition uint32_of (x : float) : option N :=
  match Prim2SF x with
  | S754_zero _ => Some 0%N
  | S754_finite false m e =>
      let v : Z :=
        (if 0 <=? e then Z.pos m * 2 ^ e
         else if Z.pos m mod 2 ^ (- e) =? 0 then Z.pos m / 2 ^ (- e)
         else -1)%Z in
      if (0 <=? v)%Z && (v <? 2 ^ 32)%Z then Some (Z.to_N v) else None
  | _ => None
  end.

(** [Array(len)]: a number must be an array length, or a RangeError is
    thrown (the message is the one of V8); anything else becomes the only
    element of the array. *)
Definition Array_ (len : value) : completion (list value) :=
  match len with
  | VNumber x =>
      match uint32_of x with
      | Some n => Return (repeat VUndefined (N.to_nat n))
      | None => Throw {| kind := RangeError; message := str "Invalid array length" |}
      end
  | v => Return [v]
  end.

(** [Array.prototype.fill(v)]. *)
Definition fill (v : value) (array : list value) : list value :=
  map (fun _ => v) array.

(** [Array.prototype.join('')] on an array of strings and [undefined]s. *)
Definition join (elems : list (option js_string)) : js_string :=
  concat (map (fun e => match e with Some s => s | None => [] end) elems).

(** An outcome of [Math.random()]: the number [numerator / denominator],
    which lies in [0, 1) when [in_unit_interval] holds.  The product with a
    size and its floor are taken exactly; the rounded product of the
    binary64 arithmetic has its floor in the same range [0, size). *)
Record random_number : Type := { numerator : nat; denominator : nat }.

Definition in_unit_interval (r : random_number) : bool :=
  (numerator r <? denominator r)%nat.

(** [Math.floor(r * size)]. *)
Definition floor_mul (r : random_number) (size : nat) : nat :=
  (numerator r * size) / denominator r.

End Js.

Notation "x <- c ;; k" := (Js.bind c (fun x => k))
(at level 61, c at next level, right associativity).

Import Js.

(* ================================================================== *)
(** ** [src/defaults.js] *)

Module Defaults.

Definition suggestions : list value :=
  map (fun s => VString (str s))
    ([ "The password must have at least 8 characters.";
      "Add uppercase and lowercase letters to make the password more secure.";
      "Add numbers to make the password more secure.";
      "Add symbols to make the password more secure.";
      "Avoid using repeated characters in the password.";
      "Avoid using common password patterns.";
      "Excellent! The password is secure." ])%string.

Definition qualities : list value :=
  map (fun s => VString (str s)) (["insecure"; "low"; "medium"; "high"; "perfect"])%string.

End Defaults.

(* ================================================================== *)
(** ** [src/functions.js] *)

Module Functions.

Definition numbers : js_string := str "0123456789".

(** The punctuation of ASCII: 33-47, 58-64, 91-96 and 123-126. *)
Definition symbols : js_string :=
  (str "!" ++ [34%N] ++ str "#$%&'()*+,-./:;<=>?@[\]^_`{|}~").

Definition lowercases : js_string := str "abcdefghijklmnopqrstuvwxyz".

Definition uppercases : js_string := str "ABCDEFGHIJKLMNOPQRSTUVWXYZ".

(** [Math.floor(Math.random() * size)], for the outcome [r] of the call of
    [Math.random]. *)
Definition getRandomNumber (size : nat) (r : random_number) : nat :=
  floor_mul r size.

(** The object built by the four spreads: a flag that is truthy adds its
    alphabet under its own name, a falsy one adds nothing; the properties
    keep the order of the spreads.  The argument is an object, as in
    [generate], which calls the function once [checkOptions] has accepted
    the request; on [null] and [undefined] the source throws at the first
    property read, which is not part of this function. *)
Definition getSelectedChars (options : value) : list (string * js_string) :=
  (if ToBoolean (Get options "numbers") then [("numbers"%string, numbers)] else [])
  ++ (if ToBoolean (Get options "symbols") then [("symbols"%string, symbols)] else [])
  ++ (if ToBoolean (Get options "uppercases") then [("uppercases"%string, uppercases)] else [])
  ++ (if ToBoolean (Get options "lowercases") then [("lowercases"%string, lowercases)] else []).

(** [value.split('')]: one string per code unit. *)
Definition split (s : js_string) : list js_string :=
  map (fun c => [c]) s.

(** [Object.values(selected).flatMap(value => value.split(''))]. *)
Definition charsToArray (selected : list (string * js_string)) : list js_string :=
  flat_map (fun kv => split (snd kv)) selected.

(** On an array without holes; [every] skips the holes of an array
    that has some ([Shared.everyString]). *)
Definition everyString (target : list value) : bool :=
  forallb (fun item => String.eqb (typeof item) "string") target.

End Functions.

(* ================================================================== *)
(** ** [src/index.js]: the class [PasswordToolKit] *)

Module Toolkit.
Import RegExp Constants Functions.

(** The instance state set by the constructor.  The checks of the
    constructor make [suggestions] and [qualities] arrays and [maximum] a
    number.  The two arrays are given by their elements, as a call reads
    them: the instance refers to the arrays of the settings or of
    [src/defaults.js], and this record is what such an instance is while
    nobody writes to them ([Shared.snapshot]); the references, the holes
    and the writes of the caller are those of [Shared]. *)
Record PasswordToolKit : Type := {
  suggestions : list value;
  qualities : list value;
  maximum : float
}.

Record OptionsValidation : Type := { ok : bool; reason : value }.

Record PasswordEvaluation : Type := {
  level : nat;
  quality : value;
  suggestion : value
}.

Definition type_error (msg : js_string) : error :=
  {| kind := TypeError; message := msg |}.

Definition range_error (msg : js_string) : error :=
  {| kind := RangeError; message := msg |}.

(** [The "name" ...]: a message that starts with a quoted name. *)
Definition quoted (before name after : string) : js_string :=
  str (before ++ dq ++ name ++ dq ++ after)%string.

(** [Reflect.has(settings, name) && !test(settings.name)]. *)
Definition has_and_not (settings : value) (name : string) (check : value -> bool)
  : completion bool :=
  present <- Reflect_has settings name;;
  Return (present && negb (check (Get settings name))).

Definition elements (v : value) : list value :=
  match v with
  | VArray elems => elems
  | _ => []
  end.

(** [new PasswordToolKit(settings)]; an argument that is [undefined] takes
    the default [{}]. *)
Definition constructor (argument : value) : completion PasswordToolKit :=
  let settings := match argument with VUndefined => VObject [] | v => v end in
  if negb (String.eqb (typeof settings) "object") then
    Throw (type_error (quoted "The " "options" " must be an object."))
  else
  bad <- has_and_not settings "suggestions" isArray;;
  if bad then Throw (type_error (quoted "The " "suggestions" " value must be an array type.")) else
  bad <- has_and_not settings "qualities" isArray;;
  if bad then Throw (type_error (quoted "The " "qualities" " value must be an array type.")) else
  bad <- has_and_not settings "maximum" (fun v => String.eqb (typeof v) "number");;
  if bad then Throw (type_error (quoted "The " "maximum" " value must be a number type.")) else
  bad <- has_and_not settings "suggestions" (fun v => everyString (elements v));;
  if bad then Throw (type_error (quoted "All " "suggestions" " values must be a string type.")) else
  bad <- has_and_not settings "qualities" (fun v => everyString (elements v));;
  if bad then Throw (type_error (quoted "All " "qualities" " values must be a string type.")) else
  bad <- has_and_not settings "suggestions" (fun v => Nat.eqb (length (elements v)) 7);;
  if bad then Throw (range_error (quoted "The " "suggestions" " elements number must be equal to 7.")) else
  bad <- has_and_not settings "qualities" (fun v => Nat.eqb (length (elements v)) 5);;
  if bad then Throw (range_error (quoted "The " "qualities" " elements number must be equal to 5.")) else
  Return {|
    (* settings.suggestions || suggestions: an array is truthy, an absent
       property reads as undefined *)
    suggestions := match Get settings "suggestions" with
                   | VArray elems => elems
                   | _ => Defaults.suggestions
                   end;
    (* settings.qualities || qualities *)
    qualities := match Get settings "qualities" with
                 | VArray elems => elems
                 | _ => Defaults.qualities
                 end;
    (* settings.maximum || 30: the numbers 0, -0 and NaN are falsy *)
    maximum := match Get settings "maximum" with
               | VNumber x => if ToBoolean (VNumber x) then x else 30%float
               | _ => 30%float
               end
  |}.

Definition invalid (msg : js_string) : completion OptionsValidation :=
  Return {| ok := false; reason := VString msg |}.

Definition checkOptions (this : PasswordToolKit) (options : value)
  : completion OptionsValidation :=
  if negb (String.eqb (typeof options) "object") then
    invalid (str "Options must be an object.")
  else
  present <- Reflect_has options "size";;
  if negb present then invalid (quoted "The " "size" " property is required.") else
  below <- less_than (Get options "size") (VNumber 1%float);;
  if below then invalid (str "The password length must be greater than 1.") else
  above <- greater_than (Get options "size") (VNumber (maximum this));;
  if above then invalid (str "The password length must be less than specified maximum.") else
  bad <- has_and_not options "numbers" (fun v => String.eqb (typeof v) "boolean");;
  if bad then invalid (quoted "The " "numbers" " option must be a boolean.") else
  bad <- has_and_not options "symbols" (fun v => String.eqb (typeof v) "boolean");;
  if bad then invalid (quoted "The " "symbols" " option must be a boolean.") else
  bad <- has_and_not options "uppercases" (fun v => String.eqb (typeof v) "boolean");;
  if bad then invalid (quoted "The " "uppercases" " option must be a boolean.") else
  bad <- has_and_not options "lowercases" (fun v => String.eqb (typeof v) "boolean");;
  if bad then invalid (quoted "The " "lowercases" " option must be a boolean.") else
  if negb (ToBoolean (Get options "numbers")) && negb (ToBoolean (Get options "symbols"))
     && negb (ToBoolean (Get options "uppercases")) && negb (ToBoolean (Get options "lowercases"))
  then invalid (str "You must select at least one option to generate the password.")
  else Return {| ok := true; reason := VNull |}.

(** [generate(options)].  [random i] is the outcome of the call of
    [Math.random] made for the element of index [i]; [map] visits the
    elements in index order. *)
Definition generate (this : PasswordToolKit) (options : value)
    (random : nat -> random_number) : completion value :=
  check <- checkOptions this options;;
  if negb (ok check) then Return VNull else
  array <- Array_ (Get options "size");;
  let array := fill (VString []) array in
  let selectedChars := getSelectedChars options in
  let chars := charsToArray selectedChars in
  let password :=
    join (map (fun i => nth_error chars (getRandomNumber (length chars) (random i)))
              (seq 0 (length array))) in
  Return (VString password).

(** [array[index]]: an index past the end reads as [undefined]. *)
Definition at_index (array : list value) (index : nat) : value :=
  nth index array VUndefined.

(** The object literal [{ level, quality: this.qualities[q], suggestion:
    this.suggestions[s] }] of the [return] statements of [evaluate]. *)
Definition evaluation (this : PasswordToolKit) (lvl q s : nat) : PasswordEvaluation :=
  {| level := lvl;
     quality := at_index (qualities this) q;
     suggestion := at_index (suggestions this) s |}.

(** [evaluate(password)], with the list of common patterns as a parameter;
    the loop over the patterns returns at the first one that matches. *)
Definition evaluate_with (patterns : list regex) (this : PasswordToolKit)
    (password : value) : completion PasswordEvaluation :=
  match password with
  | VString password =>
      if (length password <? 8)%nat then Return (evaluation this 0 0 0)
      else if negb (test regexps.lowercases password)
              || negb (test regexps.uppercases password)
      then Return (evaluation this 1 1 1)
      else if negb (test regexps.numbers password) then Return (evaluation this 2 1 2)
      else if negb (test regexps.symbols password) then Return (evaluation this 3 2 3)
      else if test regexps.repeated password then Return (evaluation this 4 3 4)
      else if existsb (fun pattern => test pattern password) patterns
      then Return (evaluation this 4 3 5)
      else Return (evaluation this 5 4 6)
  | _ =>
      Throw (type_error (quoted "The " "password" " value must be a string type."))
  end.

Definition evaluate : PasswordToolKit -> value -> completion PasswordEvaluation :=
  evaluate_with patterns.

End Toolkit.

(* ================================================================== *)
(** ** Vocabulary of the statements *)

Module Statements.
Import RegExp Constants Toolkit.

(** The instance that [new PasswordToolKit({ maximum: m })] builds when
    [m] is truthy. *)
Definition with_maximum (m : float) : PasswordToolKit :=
  {| suggestions := Defaults.suggestions;
     qualities := Defaults.qualities;
     maximum := m |}.

(** The instance that [new PasswordToolKit()] builds. *)
Definition default : PasswordToolKit := with_maximum 30%float.

(** The rows (level, index of the quality, index of the suggestion) of the
    table of the classifier. *)
Definition rows : list (nat * nat * nat) :=
  [(0, 0, 0); (1, 1, 1); (2, 1, 2); (3, 2, 3); (4, 3, 4); (4, 3, 5); (5, 4, 6)].

Definition row_evaluation (this : PasswordToolKit) (row : nat * nat * nat)
  : PasswordEvaluation :=
  let '(lvl, q, s) := row in evaluation this lvl q s.

(** The list of common patterns without its fifth and eighth entries. *)
Definition patterns_without_5_and_8 : list regex :=
  [pattern1; pattern2; pattern3; pattern4; pattern6; pattern7].

(** The checks of the constructor on [qualities] and [maximum] that come
    before the check of the length of [suggestions]: a [qualities] that is
    present is an array of strings, a [maximum] that is present is a
    number. *)
Definition qualities_and_maximum_typed (props : list (string * value)) : bool :=
  match lookup "qualities" props with
  | None => true
  | Some v => isArray v && Functions.everyString (elements v)
  end
  && match lookup "maximum" props with
     | None => true
     | Some v => String.eqb (typeof v) "number"
     end.

(** The number whose value is the natural number [n] (below 2^63). *)
Definition number_of_nat (n : nat) : float :=
  PrimFloat.of_uint63 (Uint63.of_Z (Z.of_nat n)).

(** The object literal [{ size, numbers, symbols, uppercases, lowercases }]. *)
Definition request (size : value) (numbers symbols uppercases lowercases : bool) : value :=
  VObject [("size"%string, size);
           ("numbers"%string, VBool numbers);
           ("symbols"%string, VBool symbols);
           ("uppercases"%string, VBool uppercases);
           ("lowercases"%string, VBool lowercases)].

Definition valid : OptionsValidation := {| ok := true; reason := VNull |}.

Definition too_small : OptionsValidation :=
  {| ok := false; reason := VString (str "The password length must be greater than 1.") |}.

Definition too_large : OptionsValidation :=
  {| ok := false;
     reason := VString (str "The password length must be less than specified maximum.") |}.

Definition no_option : OptionsValidation :=
  {| ok := false;
     reason := VString (str "You must select at least one option to generate the password.") |}.

(** A flag of a request that is present without being a boolean. *)
Definition flag_untyped (props : list (string * value)) (name : string) : bool :=
  match lookup name props with
  | Some v => negb (String.eqb (typeof v) "boolean")
  | None => false
  end.

(** A flag of a request that is truthy. *)
Definition flag_set (props : list (string * value)) (name : string) : bool :=
  match lookup name props with
  | Some v => ToBoolean v
  | None => false
  end.

(** A flag of a request that is the boolean [true]. *)
Definition flag_true (props : list (string * value)) (name : string) : bool :=
  match lookup name props with
  | Some (VBool true) => true
  | _ => false
  end.

(** The union of the alphabets whose flag is [true] in a request. *)
Definition selected_alphabets (props : list (string * value)) : js_string :=
  (if flag_true props "numbers" then Functions.numbers else [])
  ++ (if flag_true props "symbols" then Functions.symbols else [])
  ++ (if flag_true props "uppercases" then Functions.uppercases else [])
  ++ (if flag_true props "lowercases" then Functions.lowercases else []).

(** [n] consecutive code units of the class [p]. *)
Definition has_run (p : code_unit -> bool) (n : nat) (s : js_string) : Prop :=
  exists before w after,
    s = before ++ w ++ after /\ length w = n /\ forallb p w = true.

(** A code unit of the class [p] immediately followed by one of the class
    [q]. *)
Definition has_adjacent (p q : code_unit -> bool) (s : js_string) : Prop :=
  exists before a b after,
    s = before ++ a :: b :: after /\ p a = true /\ q b = true.

(** Three consecutive copies of one letter or digit. *)
Definition has_triple (s : js_string) : Prop :=
  exists before ch after,
    s = before ++ ch :: ch :: ch :: after /\ alnum ch = true.

(** Two copies of a code unit, with no line terminator from the first copy
    to the second. *)
Definition has_repeat (s : js_string) : Prop :=
  exists before ch mid after,
    s = before ++ ch :: mid ++ ch :: after
    /\ dot ch = true /\ forallb dot mid = true.

(** The common patterns that are left once the patterns implied by another
    check are removed. *)
Definition patterns_1_3_6_7 : list regex :=
  [pattern1; pattern3; pattern6; pattern7].

(** Four digits in a row, four letters in a row, or a letter and a digit
    side by side: what the common patterns look for in a string that has
    no repeated character. *)
Definition has_sequence (s : js_string) : Prop :=
  has_run digit 4 s \/ has_run letter 4 s
  \/ has_adjacent letter digit s \/ has_adjacent digit letter s.

(** The nine reasons that [checkOptions] gives for a refusal, in the order
    of its checks. *)
Definition reasons : list js_string :=
  [ str "Options must be an object.";
    quoted "The " "size" " property is required.";
    str "The password length must be greater than 1.";
    str "The password length must be less than specified maximum.";
    quoted "The " "numbers" " option must be a boolean.";
    quoted "The " "symbols" " option must be a boolean.";
    quoted "The " "uppercases" " option must be a boolean.";
    quoted "The " "lowercases" " option must be a boolean.";
    str "You must select at least one option to generate the password." ].

(** The properties of a request that [checkOptions] and [generate] read. *)
Definition request_properties : list string :=
  ([ "size"; "numbers"; "symbols"; "uppercases"; "lowercases" ])%string.

(** The first index of a code unit in a string. *)
Fixpoint index_of (c : code_unit) (pool : js_string) : nat :=
  match pool with
  | [] => 0
  | d :: rest => if N.eqb d c then 0 else S (index_of c rest)
  end.

(** No code unit occurs twice. *)
Fixpoint distinct (s : js_string) : bool :=
  match s with
  | [] => true
  | c :: rest => negb (existsb (N.eqb c) rest) && distinct rest
  end.

(** A symbol in the words of the specification: a code unit that is neither
    a word character nor white space. *)
Definition non_word_non_space (c : code_unit) : bool :=
  non_word c && negb (space c).

End Statements.

(* ================================================================== *)
(** ** The arrays of an instance as shared objects

    The constructor stores in the instance the very arrays that the
    settings hold ([settings.suggestions || suggestions]), and [evaluate]
    reads them at each call.  Here the arrays live in a store, a value can
    be a reference to one of them, and an array can have holes.  The
    definitions of [Toolkit] describe the same program for arrays that
    have no hole and that nobody writes to: see [SharedFacts]. *)

Module Shared.

(** An array object: its elements in index order, [None] being a hole. *)
Definition array_object : Type := list (option value).

Definition location : Type := nat.

(** The arrays that exist, by location.  The two arrays of
    [src/defaults.js] are objects of the module: they are in every
    store, at the first two locations. *)
Definition store : Type := list array_object.

Definition suggestions_location : location := 0.
Definition qualities_location : location := 1.

(** The store when the module has been loaded and nothing else has run. *)
Definition initial : store :=
  [map Some Defaults.suggestions; map Some Defaults.qualities].

(** A value as the program holds it: an array of the store is held by
    reference, and so are the properties of an object that holds one;
    [RValue] is any other value. *)
Inductive reference : Type :=
| RValue (v : value)
| RArray (l : location)
| RObject (props : list (string * reference)).

Definition typeof (r : reference) : string :=
  match r with
  | RValue v => Js.typeof v
  | RArray _ | RObject _ => "object"
  end.

Definition isArray (r : reference) : bool :=
  match r with
  | RValue v => Js.isArray v
  | RArray _ => true
  | RObject _ => false
  end.

Definition ToBoolean (r : reference) : bool :=
  match r with
  | RValue v => Js.ToBoolean v
  | RArray _ | RObject _ => true
  end.

Fixpoint lookup (name : string) (props : list (string * reference))
  : option reference :=
  match props with
  | [] => None
  | (k, r) :: rest => if String.eqb k name then Some r else lookup name rest
  end.

(** [Reflect.has(target, name)], for the names of the three settings. *)
Definition Reflect_has (target : reference) (name : string) : completion bool :=
  match target with
  | RObject props =>
      Return (match lookup name props with Some _ => true | None => false end)
  | RArray _ => Return false
  | RValue v => Js.Reflect_has v name
  end.

(** [target.name], read after [Reflect.has] has accepted [target]. *)
Definition Get (target : reference) (name : string) : reference :=
  match target with
  | RObject props =>
      match lookup name props with
      | Some r => r
      | None => RValue VUndefined
      end
  | RArray _ => RValue VUndefined
  | RValue v => RValue (Js.Get v name)
  end.

(** The elements of an array, as the store has them at the time of the
    reading. *)
Definition elements (sigma : store) (r : reference) : array_object :=
  match r with
  | RArray l => nth l sigma []
  | RValue (VArray elems) => map Some elems
  | _ => []
  end.

(** [target.every(item => typeof item === 'string')]: [every] calls the
    function on the elements that are present and skips the holes. *)
Definition everyString (target : array_object) : bool :=
  forallb (fun slot =>
             match slot with
             | Some item => String.eqb (Js.typeof item) "string"
             | None => true
             end) target.

(** The instance: [this.suggestions] and [this.qualities] hold the
    references that the constructor was given, or those of the arrays of
    [src/defaults.js]; the three properties are not writable. *)
Record PasswordToolKit : Type := {
  suggestions : reference;
  qualities : reference;
  maximum : float
}.

(** [Reflect.has(settings, name) && !test(settings.name)]. *)
Definition has_and_not (settings : reference) (name : string)
    (check : reference -> bool) : completion bool :=
  present <- Reflect_has settings name;;
  Return (present && negb (check (Get settings name))).

(** [new PasswordToolKit(settings)] in the store [sigma]; the constructor
    reads the arrays and writes nothing. *)
Definition constructor (sigma : store) (argument : reference)
  : completion PasswordToolKit :=
  let settings :=
    match argument with
    | RValue VUndefined => RValue (VObject [])
    | r => r
    end in
  if negb (String.eqb (typeof settings) "object") then
    Throw (Toolkit.type_error (Toolkit.quoted "The " "options" " must be an object."))
  else
  bad <- has_and_not settings "suggestions" isArray;;
  if bad then Throw (Toolkit.type_error (Toolkit.quoted "The " "suggestions" " value must be an array type.")) else
  bad <- has_and_not settings "qualities" isArray;;
  if bad then Throw (Toolkit.type_error (Toolkit.quoted "The " "qualities" " value must be an array type.")) else
  bad <- has_and_not settings "maximum" (fun r => String.eqb (typeof r) "number");;
  if bad then Throw (Toolkit.type_error (Toolkit.quoted "The " "maximum" " value must be a number type.")) else
  bad <- has_and_not settings "suggestions" (fun r => everyString (elements sigma r));;
  if bad then Throw (Toolkit.type_error (Toolkit.quoted "All " "suggestions" " values must be a string type.")) else
  bad <- has_and_not settings "qualities" (fun r => everyString (elements sigma r));;
  if bad then Throw (Toolkit.type_error (Toolkit.quoted "All " "qualities" " values must be a string type.")) else
  bad <- has_and_not settings "suggestions" (fun r => Nat.eqb (length (elements sigma r)) 7);;
  if bad then Throw (Toolkit.range_error (Toolkit.quoted "The " "suggestions" " elements number must be equal to 7.")) else
  bad <- has_and_not settings "qualities" (fun r => Nat.eqb (length (elements sigma r)) 5);;
  if bad then Throw (Toolkit.range_error (Toolkit.quoted "The " "qualities" " elements number must be equal to 5.")) else
  Return {|
    (* settings.suggestions || suggestions *)
    suggestions := if ToBoolean (Get settings "suggestions")
                   then Get settings "suggestions"
                   else RArray suggestions_location;
    (* settings.qualities || qualities *)
    qualities := if ToBoolean (Get settings "qualities")
                 then Get settings "qualities"
                 else RArray qualities_location;
    (* settings.maximum || 30 *)
    maximum := match Get settings "maximum" with
               | RValue (VNumber x) =>
                   if Js.ToBoolean (VNumber x) then x else 30%float
               | _ => 30%float
               end
  |}.

(** [array[index]]: a hole and an index past the end read as
    [undefined]. *)
Definition at_index (array : array_object) (index : nat) : value :=
  match nth_error array index with
  | Some (Some v) => v
  | _ => VUndefined
  end.

(** The object literal of a [return] statement of [evaluate], its two
    property reads made in the store of the call. *)
Definition evaluation (sigma : store) (this : PasswordToolKit) (lvl q s : nat)
  : Toolkit.PasswordEvaluation :=
  {| Toolkit.level := lvl;
     Toolkit.quality := at_index (elements sigma (qualities this)) q;
     Toolkit.suggestion := at_index (elements sigma (suggestions this)) s |}.

(** [evaluate(password)] in the store [sigma].  The regular expressions
    carry no flag, so that [test] neither reads nor writes their
    [lastIndex]; the call writes nothing. *)
Definition evaluate (sigma : store) (this : PasswordToolKit) (password : value)
  : completion Toolkit.PasswordEvaluation :=
  match password with
  | VString password =>
      if (length password <? 8)%nat then Return (evaluation sigma this 0 0 0)
      else if negb (RegExp.test Constants.regexps.lowercases password)
              || negb (RegExp.test Constants.regexps.uppercases password)
      then Return (evaluation sigma this 1 1 1)
      else if negb (RegExp.test Constants.regexps.numbers password)
      then Return (evaluation sigma this 2 1 2)
      else if negb (RegExp.test Constants.regexps.symbols password)
      then Return (evaluation sigma this 3 2 3)
      else if RegExp.test Constants.regexps.repeated password
      then Return (evaluation sigma this 4 3 4)
      else if existsb (fun pattern => RegExp.test pattern password) Constants.patterns
      then Return (evaluation sigma this 4 3 5)
      else Return (evaluation sigma this 5 4 6)
  | _ =>
      Throw (Toolkit.type_error
               (Toolkit.quoted "The " "password" " value must be a string type."))
  end.

(** *** What the caller can do to an array it holds *)



(** *** Statements *)

(** The instance of [Toolkit] that an instance is at a given time: its
    arrays as a call reads them, a hole reading as [undefined]. *)
Definition reading (array : array_object) : list value :=
  map (fun slot => match slot with Some v => v | None => VUndefined end) array.

Definition snapshot (sigma : store) (this : PasswordToolKit)
  : Toolkit.PasswordToolKit :=
  {| Toolkit.suggestions := reading (elements sigma (suggestions this));
     Toolkit.qualities := reading (elements sigma (qualities this));
     Toolkit.maximum := maximum this |}.

(** The two arrays of [src/defaults.js] are as the module made them. *)
Definition defaults_intact (sigma : store) : Prop :=
  nth suggestions_location sigma [] = map Some Defaults.suggestions
  /\ nth qualities_location sigma [] = map Some Defaults.qualities.

(** An array without holes. *)
Definition dense (array : array_object) : bool :=
  forallb (fun slot => match slot with Some _ => true | None => false end) array.

(** The result of the row (level, index of the quality, index of the
    suggestion), read in the store of the call. *)
Definition read_row (sigma : store) (this : PasswordToolKit)
    (row : nat * nat * nat) : Toolkit.PasswordEvaluation :=
  let '(lvl, q, s) := row in evaluation sigma this lvl q s.

(** The strings of each row of the classifier.  A symbol is a code unit
    that is not an ASCII letter or digit; a repeat is a code unit that
    comes twice with no line terminator in between. *)
Definition row_applies (row : nat * nat * nat) (s : js_string) : Prop :=
  let cased := existsb RegExp.lower s = true /\ existsb RegExp.upper s = true in
  let strong :=
    8 <= length s /\ cased /\ existsb RegExp.digit s = true
    /\ forallb RegExp.alnum s = false in
  match row with
  | (0, 0, 0) => length s < 8
  | (1, 1, 1) => 8 <= length s /\ ~ cased
  | (2, 1, 2) => 8 <= length s /\ cased /\ existsb RegExp.digit s = false
  | (3, 2, 3) =>
      8 <= length s /\ cased /\ existsb RegExp.digit s = true
      /\ forallb RegExp.alnum s = true
  | (4, 3, 4) => strong /\ Statements.has_repeat s
  | (4, 3, 5) => strong /\ ~ Statements.has_repeat s /\ Statements.has_sequence s
  | (5, 4, 6) => strong /\ ~ Statements.has_repeat s /\ ~ Statements.has_sequence s
  | _ => False
  end.

(** A setting that is absent, or present with a value that passes
    [check]. *)
Definition absent_or (props : list (string * reference)) (name : string)
    (check : reference -> bool) : bool :=
  match lookup name props with
  | Some r => check r
  | None => true
  end.

(** An array whose elements, the holes apart, are strings. *)
Definition string_array (sigma : store) (r : reference) : bool :=
  isArray r && everyString (elements sigma r).

(** The settings that are present have the types that the constructor
    checks. *)
Definition settings_typed (sigma : store) (props : list (string * reference)) : bool :=
  absent_or props "suggestions" (string_array sigma)
  && absent_or props "qualities" (string_array sigma)
  && absent_or props "maximum" (fun r => String.eqb (typeof r) "number").

(** The arrays that are present have the lengths that the constructor
    checks. *)
Definition settings_sized (sigma : store) (props : list (string * reference)) : bool :=
  absent_or props "suggestions" (fun r => Nat.eqb (length (elements sigma r)) 7)
  && absent_or props "qualities" (fun r => Nat.eqb (length (elements sigma r)) 5).

(** The instance that the settings describe: the references given, those
    of the arrays of [src/defaults.js] for the arrays that are absent, and
    30 for a maximum that is absent, 0 or NaN. *)
Definition instance_of (props : list (string * reference)) : PasswordToolKit :=
  {| suggestions := match lookup "suggestions" props with
                    | Some r => r
                    | None => RArray suggestions_location
                    end;
     qualities := match lookup "qualities" props with
                  | Some r => r
                  | None => RArray qualities_location
                  end;
     maximum := match lookup "maximum" props with
                | Some (RValue (VNumber x)) =>
                    if PrimFloat.eqb x 0 || PrimFloat.is_nan x then 30%float else x
                | _ => 30%float
                end |}.

End Shared.


(* ================================================================== *)
(** * Properties *)

(** ** The matcher *)

Module RegExpFacts.
Import RegExp Constants.

(** A pattern made of one class matches a string exactly when some code
    unit of the string is in the class. *)
Lemma test_atom (p : code_unit -> bool) (s : js_string) :
  test (Atom p) s = existsb p s.
Proof.
  induction s as [|c s IH]; simpl.
  - reflexivity.
  - unfold matches_at at 1. simpl. rewrite IH.
    now rewrite andb_true_r.
Qed.

(** [test] succeeds exactly when the pattern matches at the start of some
    suffix of the string. *)
Lemma test_true_iff (r : regex) (s : js_string) :
  test r s = true <->
  exists before x, s = before ++ x /\ matches_at r x = true.
Proof.
  split.
  - induction s as [|c s IH]; simpl; intros H.
    + exists [], []. split; [reflexivity|].
      now rewrite orb_false_r in H.
    + apply orb_true_iff in H. destruct H as [H|H].
      * now exists [], (c :: s).
      * destruct (IH H) as (before & x & -> & Hx).
        now exists (c :: before), x.
  - intros (before & x & -> & Hx).
    induction before as [|c before IH]; simpl.
    + destruct x; simpl; rewrite Hx; reflexivity.
    + rewrite IH. apply orb_true_r.
Qed.

Lemma test_false_suffix (r : regex) (before x : js_string) :
  test r (before ++ x) = false -> matches_at r x = false.
Proof.
  intros H. destruct (matches_at r x) eqn:E; [|reflexivity].
  assert (T : test r (before ++ x) = true)
    by (apply test_true_iff; now exists before, x).
  congruence.
Qed.

Lemma between_spec (lo hi c : code_unit) :
  between lo hi c = true <-> (lo <= c <= hi)%N.
Proof.
  unfold between. rewrite andb_true_iff, !N.leb_le. tauto.
Qed.

(** The classes, as ranges of code units. *)
Lemma alnum_spec (c : code_unit) :
  alnum c = true <-> (65 <= c <= 90 \/ 97 <= c <= 122 \/ 48 <= c <= 57)%N.
Proof.
  unfold alnum, letter, upper, lower, digit.
  rewrite !orb_true_iff, !between_spec. tauto.
Qed.

Lemma alnum_dot (c : code_unit) : alnum c = true -> dot c = true.
Proof.
  rewrite alnum_spec. intros H.
  unfold dot, line_terminator.
  destruct (N.eqb_spec c 10), (N.eqb_spec c 13),
           (N.eqb_spec c 8232), (N.eqb_spec c 8233); simpl; try reflexivity; lia.
Qed.

(** [[\W_]] is the complement of [[A-Za-z0-9]]. *)
Lemma non_word_or_underscore_spec (c : code_unit) :
  non_word_or_underscore c = negb (alnum c).
Proof.
  unfold non_word_or_underscore, non_word, word.
  destruct (N.eqb_spec c 95) as [->|_].
  - reflexivity.
  - now rewrite !orb_false_r.
Qed.

Lemma test_symbols (s : js_string) :
  test Constants.regexps.symbols s = negb (forallb alnum s).
Proof.
  unfold Constants.regexps.symbols. rewrite test_atom.
  induction s as [|c s IH]; simpl.
  - reflexivity.
  - rewrite IH, non_word_or_underscore_spec, negb_andb. reflexivity.
Qed.

(** *** Fuel of [RepeatMatcher] *)

Lemma starts_with_length (w x y : js_string) :
  starts_with w x = Some y -> length y <= length x.
Proof.
  revert x. induction w as [|a w IH]; intros [|b x]; simpl; intros H;
    try discriminate.
  - injection H as H. subst y. simpl. lia.
  - injection H as H. subst y. simpl. lia.
  - destruct (a =? b)%N; [|discriminate].
    apply IH in H. lia.
Qed.

Lemma RepeatMatcher_suffix (m : matcher) :
  continues_on_suffix m ->
  forall fuel min max greedy reset,
    continues_on_suffix (RepeatMatcher fuel m min max greedy reset).
Proof.
  intros Hm fuel.
  induction fuel as [|fuel IH]; intros min max greedy reset x cap c c' Hc.
  - reflexivity.
  - assert (Hx : c x cap = c' x cap) by (apply Hc; lia).
    assert (Hd : forall max' y cap', length y <= length x ->
              (if (min =? 0)%nat && (length y =? length x)%nat then false
               else RepeatMatcher fuel m (pred min) max' greedy reset y cap' c)
              = (if (min =? 0)%nat && (length y =? length x)%nat then false
                 else RepeatMatcher fuel m (pred min) max' greedy reset y cap' c')).
    { intros max' y cap' Hy.
      destruct ((min =? 0)%nat && (length y =? length x)%nat); [reflexivity|].
      apply IH. intros z cap'' Hz. apply Hc. lia. }
    destruct max as [[|n]|]; simpl; [exact Hx| |];
      (destruct (negb (min =? 0)%nat);
       [|destruct greedy; rewrite Hx; f_equal]);
      apply Hm; apply Hd.
Qed.

Lemma compile_suffix (r : regex) : continues_on_suffix (compile r).
Proof.
  induction r as [p|r1 IH1 r2 IH2|r1 IH1 min max greedy|r1 IH1|];
    intros x cap c c' Hc; simpl.
  - destruct x as [|ch y]; [reflexivity|].
    rewrite (Hc y cap); [reflexivity|simpl; lia].
  - apply IH1. intros y cap' Hy. apply IH2.
    intros z cap'' Hz. apply Hc. lia.
  - apply (RepeatMatcher_suffix IH1 (S (min + length x))). exact Hc.
  - apply IH1. intros y cap' Hy. now apply Hc.
  - destruct cap as [w|].
    + destruct (starts_with w x) as [y|] eqn:E; [|reflexivity].
      apply Hc. now apply starts_with_length with w.
    + apply Hc. lia.
Qed.

(** Any fuel above [min + length x] gives the same answer: the fuel that
    [compile] hands to [RepeatMatcher] is never used up. *)
Lemma RepeatMatcher_fuel (m : matcher) :
  continues_on_suffix m ->
  forall fuel1 fuel2 min max greedy reset x cap c,
    min + length x < fuel1 -> min + length x < fuel2 ->
    RepeatMatcher fuel1 m min max greedy reset x cap c
    = RepeatMatcher fuel2 m min max greedy reset x cap c.
Proof.
  intros Hm fuel1.
  induction fuel1 as [|fuel1 IH];
    intros fuel2 min max greedy reset x cap c H1 H2; [lia|].
  destruct fuel2 as [|fuel2]; [lia|].
  assert (Hd : forall max' y cap', length y <= length x ->
            (if (min =? 0)%nat && (length y =? length x)%nat then false
             else RepeatMatcher fuel1 m (pred min) max' greedy reset y cap' c)
            = (if (min =? 0)%nat && (length y =? length x)%nat then false
               else RepeatMatcher fuel2 m (pred min) max' greedy reset y cap' c)).
  { intros max' y cap' Hy.
    destruct (Nat.eqb_spec min 0) as [Hmin|Hmin];
      destruct (Nat.eqb_spec (length y) (length x)) as [Hlen|Hlen];
      simpl; try reflexivity; apply IH; lia. }
  destruct max as [[|n]|]; simpl; [reflexivity| |];
    (destruct (negb (min =? 0)%nat);
     [|destruct greedy; f_equal]);
    apply Hm; apply Hd.
Qed.

Lemma compile_quant_fuel (r : regex) (min : nat) (max : option nat)
    (greedy : bool) (extra : nat) (x : js_string) (cap : capture) (c : continuation) :
  RepeatMatcher (S (min + length x) + extra) (compile r) min max greedy
    (has_group r) x cap c
  = compile (Quant r min max greedy) x cap c.
Proof.
  apply RepeatMatcher_fuel; [apply compile_suffix|lia|lia].
Qed.

(** *** The patterns with a back reference *)

Lemma compile_group_atom (p : code_unit -> bool) (ch : code_unit)
    (y : js_string) (cap : capture) (c : continuation) :
  compile (Group (Atom p)) (ch :: y) cap c = p ch && c y (Some [ch]).
Proof.
  change (p ch && c y (Some (firstn (length (ch :: y) - length y) (ch :: y)))
          = p ch && c y (Some [ch])).
  replace (length (ch :: y) - length y) with 1 by (simpl length; lia).
  reflexivity.
Qed.

(** Pattern 5 matches at the start of [x] only if [x] starts with three
    copies of one letter or digit. *)
Lemma matches_pattern5 (x : js_string) :
  matches_at Constants.pattern5 x = true ->
  exists ch rest, x = ch :: ch :: ch :: rest /\ alnum ch = true.
Proof.
  unfold matches_at, Constants.pattern5, at_least.
  destruct x as [|ch y]; [discriminate|].
  change (compile (Group (Atom alnum)) (ch :: y) None
            (fun y cap' => compile (Quant Backref 2 None true) y cap' (fun _ _ => true))
          = true ->
          exists ch0 rest, ch :: y = ch0 :: ch0 :: ch0 :: rest /\ alnum ch0 = true).
  rewrite compile_group_atom.
  intros H. apply andb_true_iff in H. destruct H as [Ha H]. revert H.
  destruct y as [|c1 [|c2 rest]]; simpl.
  - easy.
  - destruct (ch =? c1)%N; simpl; easy.
  - destruct (N.eqb_spec ch c1) as [<-|]; [|simpl; easy].
    destruct (N.eqb_spec ch c2) as [<-|]; [|simpl; easy].
    now exists ch, rest.
Qed.

(** Pattern 8 asks for four copies. *)
Lemma matches_pattern8 (x : js_string) :
  matches_at Constants.pattern8 x = true ->
  exists ch rest, x = ch :: ch :: ch :: ch :: rest /\ alnum ch = true.
Proof.
  unfold matches_at, Constants.pattern8, at_least.
  destruct x as [|ch y]; [discriminate|].
  change (compile (Group (Atom alnum)) (ch :: y) None
            (fun y cap' => compile (Quant Backref 3 None true) y cap' (fun _ _ => true))
          = true ->
          exists ch0 rest, ch :: y = ch0 :: ch0 :: ch0 :: ch0 :: rest /\ alnum ch0 = true).
  rewrite compile_group_atom.
  intros H. apply andb_true_iff in H. destruct H as [Ha H]. revert H.
  destruct y as [|c1 [|c2 [|c3 rest]]]; simpl.
  - easy.
  - destruct (ch =? c1)%N; simpl; easy.
  - destruct (ch =? c1)%N, (ch =? c2)%N; simpl; easy.
  - destruct (N.eqb_spec ch c1) as [<-|]; [|simpl; easy].
    destruct (N.eqb_spec ch c2) as [<-|]; [|simpl; easy].
    destruct (N.eqb_spec ch c3) as [<-|]; [|simpl; easy].
    now exists ch, rest.
Qed.

(** Two adjacent copies of a code unit that is not a line terminator are
    enough for [regexps.repeated]. *)
Lemma matches_repeated_adjacent (ch : code_unit) (rest : js_string) :
  dot ch = true ->
  matches_at Constants.regexps.repeated (ch :: ch :: rest) = true.
Proof.
  intros H. unfold matches_at, Constants.regexps.repeated, star_lazy.
  change (compile (Group (Atom dot)) (ch :: ch :: rest) None
            (fun y cap' =>
               compile (Cat (Quant (Atom dot) 0 None false) Backref) y cap'
                 (fun _ _ => true)) = true).
  rewrite compile_group_atom, H. simpl. rewrite N.eqb_refl. reflexivity.
Qed.

Lemma pattern5_repeated (s : js_string) :
  test Constants.regexps.repeated s = false -> test Constants.pattern5 s = false.
Proof.
  intros H. destruct (test Constants.pattern5 s) eqn:E; [|reflexivity].
  apply test_true_iff in E. destruct E as (before & x & -> & Hx).
  apply matches_pattern5 in Hx. destruct Hx as (ch & rest & -> & Ha).
  apply test_false_suffix in H.
  rewrite matches_repeated_adjacent in H by now apply alnum_dot.
  discriminate.
Qed.

Lemma pattern8_repeated (s : js_string) :
  test Constants.regexps.repeated s = false -> test Constants.pattern8 s = false.
Proof.
  intros H. destruct (test Constants.pattern8 s) eqn:E; [|reflexivity].
  apply test_true_iff in E. destruct E as (before & x & -> & Hx).
  apply matches_pattern8 in Hx. destruct Hx as (ch & rest & -> & Ha).
  apply test_false_suffix in H.
  rewrite matches_repeated_adjacent in H by now apply alnum_dot.
  discriminate.
Qed.


(** *** The quantifiers on a class *)

Lemma quant_atom_unbounded (p : code_unit -> bool) (greedy : bool)
    (x : js_string) (cap : capture) (c : continuation) :
  forall fuel min, min + length x < fuel ->
  (RepeatMatcher fuel (compile (Atom p)) min None greedy false x cap c = true
   <-> exists w rest, x = w ++ rest /\ min <= length w /\ forallb p w = true
                      /\ c rest cap = true).
Proof.
  induction x as [|ch y IH]; intros fuel min Hfuel;
    (destruct fuel as [|fuel]; [lia|]); simpl.
  - destruct min as [|min]; simpl.
    + assert (E : (if greedy then c [] cap else c [] cap || false) = c [] cap)
        by (destruct greedy; [reflexivity|apply orb_false_r]).
      rewrite E. split.
      * intros H. exists [], []. repeat split; auto.
      * intros (w & rest & H & _ & _ & Hc).
        symmetry in H. apply app_eq_nil in H. destruct H as [-> ->]. exact Hc.
    + split; [discriminate|].
      intros (w & rest & H & Hmin & _).
      symmetry in H. apply app_eq_nil in H. destruct H as [-> ->]. simpl in Hmin. lia.
  - assert (L : (length y =? S (length y)) = false) by (apply Nat.eqb_neq; lia).
    rewrite L, andb_false_r.
    specialize (IH fuel (pred min)).
    destruct min as [|min]; simpl in *.
    + assert (E : (if greedy
                   then p ch && RepeatMatcher fuel (compile (Atom p)) 0 None greedy false y cap c
                        || c (ch :: y) cap
                   else c (ch :: y) cap
                        || p ch && RepeatMatcher fuel (compile (Atom p)) 0 None greedy false y cap c)
                  = true
                  <-> c (ch :: y) cap = true
                      \/ (p ch = true
                          /\ RepeatMatcher fuel (compile (Atom p)) 0 None greedy false y cap c = true)).
      { destruct greedy; rewrite orb_true_iff, andb_true_iff; tauto. }
      rewrite E, IH by lia. split.
      * intros [Hc|(Hp & w & rest & -> & _ & Hw & Hc)].
        -- exists [], (ch :: y). repeat split; auto.
        -- exists (ch :: w), rest. simpl. rewrite Hp, Hw. repeat split; auto. lia.
      * intros (w & rest & H & _ & Hw & Hc). destruct w as [|ch' w]; simpl in *.
        -- left. now subst rest.
        -- right. injection H as <- ->. apply andb_true_iff in Hw. destruct Hw as [Hp Hw].
           split; [exact Hp|]. exists w, rest. repeat split; auto. lia.
    + rewrite andb_true_iff, IH by lia. split.
      * intros (Hp & w & rest & -> & Hmin & Hw & Hc).
        exists (ch :: w), rest. simpl. rewrite Hp, Hw. repeat split; auto. lia.
      * intros (w & rest & H & Hmin & Hw & Hc). destruct w as [|ch' w]; simpl in *; [lia|].
        injection H as <- ->. apply andb_true_iff in Hw. destruct Hw as [Hp Hw].
        split; [exact Hp|]. exists w, rest. repeat split; auto. lia.
Qed.

Lemma quant_atom_exact (p : code_unit -> bool) (greedy : bool) (cap : capture) (c : continuation) :
  forall n x fuel, n + length x < fuel ->
  (RepeatMatcher fuel (compile (Atom p)) n (Some n) greedy false x cap c = true
   <-> exists w rest, x = w ++ rest /\ length w = n /\ forallb p w = true
                      /\ c rest cap = true).
Proof.
  induction n as [|n IH]; intros x fuel Hfuel; (destruct fuel as [|fuel]; [lia|]); simpl.
  - split.
    + intros H. exists [], x. repeat split; auto.
    + intros (w & rest & -> & Hlen & _ & Hc). apply length_zero_iff_nil in Hlen. now subst w.
  - destruct x as [|ch y].
    + split; [discriminate|]. intros (w & rest & H & Hlen & _).
      symmetry in H. apply app_eq_nil in H. destruct H as [-> ->]. discriminate.
    + rewrite andb_true_iff, IH by (simpl in Hfuel; lia). split.
      * intros (Hp & w & rest & -> & Hlen & Hw & Hc).
        exists (ch :: w), rest. simpl. rewrite Hp, Hw. repeat split; auto.
      * intros (w & rest & H & Hlen & Hw & Hc). destruct w as [|ch' w]; simpl in *; [lia|].
        injection H as <- ->. apply andb_true_iff in Hw. destruct Hw as [Hp Hw].
        split; [exact Hp|]. exists w, rest. repeat split; auto.
Qed.

Lemma compile_cat (r1 r2 : regex) (x : js_string) (cap : capture) (c : continuation) :
  compile (Cat r1 r2) x cap c = compile r1 x cap (fun y cap' => compile r2 y cap' c).
Proof. reflexivity. Qed.

Lemma compile_quant_atom (p : code_unit -> bool) (min : nat) (greedy : bool)
    (x : js_string) (cap : capture) (c : continuation) :
  compile (Quant (Atom p) min None greedy) x cap c = true
  <-> exists w rest, x = w ++ rest /\ min <= length w /\ forallb p w = true
                     /\ c rest cap = true.
Proof.
  apply (@quant_atom_unbounded p greedy x cap c (S (min + length x)) min). lia.
Qed.

Lemma compile_exactly_atom (p : code_unit -> bool) (n : nat)
    (x : js_string) (cap : capture) (c : continuation) :
  compile (exactly n (Atom p)) x cap c = true
  <-> exists w rest, x = w ++ rest /\ length w = n /\ forallb p w = true
                     /\ c rest cap = true.
Proof.
  apply (@quant_atom_exact p true cap c n x (S (n + length x))). lia.
Qed.

(** [r{n}] on a class: [n] consecutive code units of the class. *)
Lemma test_exactly_atom (p : code_unit -> bool) (n : nat) (s : js_string) :
  test (exactly n (Atom p)) s = true
  <-> exists before w after,
        s = before ++ w ++ after /\ length w = n /\ forallb p w = true.
Proof.
  rewrite test_true_iff. split.
  - intros (before & x & -> & H). unfold matches_at in H.
    apply compile_exactly_atom in H. destruct H as (w & rest & -> & Hlen & Hw & _).
    now exists before, w, rest.
  - intros (before & w & after & -> & Hlen & Hw).
    exists before, (w ++ after). split; [reflexivity|].
    apply compile_exactly_atom. now exists w, after.
Qed.

Lemma compile_backref_copy (ch : code_unit) (x : js_string) (c : continuation) :
  compile Backref x (Some [ch]) c = true
  <-> exists rest, x = ch :: rest /\ c rest (Some [ch]) = true.
Proof.
  simpl. destruct x as [|ch' x]; simpl.
  - split; [discriminate|]. intros (rest & H & _). discriminate.
  - destruct (N.eqb_spec ch ch') as [<-|Hne].
    + split.
      * intros H. now exists x.
      * intros (rest & H & Hc). now injection H as <-.
    + split; [discriminate|]. intros (rest & H & _). congruence.
Qed.

Lemma matches_repeated_iff (x : js_string) :
  matches_at regexps.repeated x = true <->
  exists ch mid rest,
    x = ch :: mid ++ ch :: rest /\ dot ch = true /\ forallb dot mid = true.
Proof.
  unfold matches_at, regexps.repeated, star_lazy. rewrite compile_cat.
  destruct x as [|ch y].
  - split; [discriminate|]. intros (ch & mid & rest & H & _). discriminate.
  - rewrite compile_group_atom, andb_true_iff, compile_cat, compile_quant_atom. split.
    + intros (D & mid & rest & -> & _ & Hmid & H).
      apply compile_backref_copy in H. destruct H as (rest' & -> & _).
      now exists ch, mid, rest'.
    + intros (ch0 & mid & rest & H & D & Hmid). injection H as <- ->.
      split; [exact D|]. exists mid, (ch :: rest).
      repeat split; [lia|exact Hmid|].
      apply compile_backref_copy. now exists rest.
Qed.

(** [regexps.repeated]: two copies of a code unit with no line terminator
    from the first copy to the second. *)
Lemma test_repeated_iff (s : js_string) :
  test regexps.repeated s = true <->
  exists before ch mid after,
    s = before ++ ch :: mid ++ ch :: after /\ dot ch = true /\ forallb dot mid = true.
Proof.
  rewrite test_true_iff. split.
  - intros (before & x & -> & H). apply matches_repeated_iff in H.
    destruct H as (ch & mid & rest & -> & H). now exists before, ch, mid, rest.
  - intros (before & ch & mid & after & -> & H).
    exists before, (ch :: mid ++ ch :: after). split; [reflexivity|].
    apply matches_repeated_iff. now exists ch, mid, after.
Qed.

Lemma not_NoDup_iff (s : js_string) :
  ~ NoDup s <-> exists before ch mid after, s = before ++ ch :: mid ++ ch :: after.
Proof.
  split.
  - induction s as [|c s IH]; intros H.
    + exfalso. apply H. constructor.
    + destruct (in_dec N.eq_dec c s) as [Hin|Hnin].
      * apply in_split in Hin. destruct Hin as (mid & after & ->).
        now exists [], c, mid, after.
      * destruct IH as (before & ch & mid & after & ->).
        { intros Hs. apply H. now constructor. }
        now exists (c :: before), ch, mid, after.
  - intros (before & ch & mid & after & ->) H.
    apply NoDup_remove_2 in H. apply H.
    rewrite in_app_iff. right. rewrite in_app_iff. right. now left.
Qed.

(** On a string without line terminator, [regexps.repeated] matches exactly
    when some code unit occurs twice. *)
Lemma test_repeated_NoDup (s : js_string) :
  forallb dot s = true ->
  (test regexps.repeated s = true <-> ~ NoDup s).
Proof.
  intros Hs. rewrite test_repeated_iff, not_NoDup_iff. split.
  - intros (before & ch & mid & after & -> & _). now exists before, ch, mid, after.
  - intros (before & ch & mid & after & ->).
    exists before, ch, mid, after. split; [reflexivity|].
    rewrite forallb_app in Hs. apply andb_true_iff in Hs. destruct Hs as [_ Hs].
    simpl in Hs. apply andb_true_iff in Hs. destruct Hs as [D Hs].
    rewrite forallb_app in Hs. apply andb_true_iff in Hs. tauto.
Qed.

(** Pattern 6: a letter immediately followed by a digit. *)
Lemma test_pattern6_iff (s : js_string) :
  test pattern6 s = true <->
  exists before l d after,
    s = before ++ l :: d :: after /\ letter l = true /\ digit d = true.
Proof.
  rewrite test_true_iff. unfold matches_at, pattern6, plus, star. split.
  - intros (before & x & -> & H).
    rewrite compile_cat in H. apply compile_quant_atom in H.
    destruct H as (w1 & r1 & -> & Hl1 & Hw1 & H).
    rewrite compile_cat in H. apply compile_quant_atom in H.
    destruct H as (w2 & r2 & -> & Hl2 & Hw2 & _).
    destruct (exists_last (l:=w1)) as (w1' & l & ->); [now destruct w1|].
    destruct w2 as [|d w2]; [simpl in Hl2; lia|].
    rewrite forallb_app in Hw1. simpl in Hw1, Hw2.
    rewrite !andb_true_iff in Hw1, Hw2.
    exists (before ++ w1'), l, d, (w2 ++ r2).
    split; [|rewrite andb_true_r in Hw1; tauto]. now rewrite <- !app_assoc.
  - intros (before & l & d & after & -> & Hl & Hd).
    exists before, (l :: d :: after). split; [reflexivity|].
    rewrite compile_cat. apply compile_quant_atom.
    exists [l], (d :: after).
    split; [reflexivity|]. split; [simpl; lia|]. split; [simpl; now rewrite Hl|].
    rewrite compile_cat. apply compile_quant_atom.
    exists [d], after.
    split; [reflexivity|]. split; [simpl; lia|]. split; [simpl; now rewrite Hd|].
    apply compile_quant_atom. exists [], after.
    split; [reflexivity|]. split; [simpl; lia|]. split; reflexivity.
Qed.

(** Pattern 7: a digit immediately followed by a letter. *)
Lemma test_pattern7_iff (s : js_string) :
  test pattern7 s = true <->
  exists before d l after,
    s = before ++ d :: l :: after /\ digit d = true /\ letter l = true.
Proof.
  rewrite test_true_iff. unfold matches_at, pattern7, plus, star. split.
  - intros (before & x & -> & H).
    rewrite compile_cat in H. apply compile_quant_atom in H.
    destruct H as (w1 & r1 & -> & _ & _ & H).
    rewrite compile_cat in H. apply compile_quant_atom in H.
    destruct H as (w2 & r2 & -> & Hl2 & Hw2 & H).
    apply compile_quant_atom in H.
    destruct H as (w3 & r3 & -> & Hl3 & Hw3 & _).
    destruct (exists_last (l:=w2)) as (w2' & d & ->); [now destruct w2|].
    destruct w3 as [|l w3]; [simpl in Hl3; lia|].
    rewrite forallb_app in Hw2. simpl in Hw2, Hw3.
    rewrite !andb_true_iff in Hw2, Hw3.
    exists (before ++ w1 ++ w2'), d, l, (w3 ++ r3).
    split; [|rewrite andb_true_r in Hw2; tauto]. now rewrite <- !app_assoc.
  - intros (before & d & l & after & -> & Hd & Hl).
    exists before, (d :: l :: after). split; [reflexivity|].
    rewrite compile_cat. apply compile_quant_atom.
    exists [], (d :: l :: after).
    split; [reflexivity|]. split; [simpl; lia|]. split; [reflexivity|].
    rewrite compile_cat. apply compile_quant_atom.
    exists [d], (l :: after).
    split; [reflexivity|]. split; [simpl; lia|]. split; [simpl; now rewrite Hd|].
    apply compile_quant_atom. exists [l], after.
    split; [reflexivity|]. split; [simpl; lia|]. split; [simpl; now rewrite Hl|].
    reflexivity.
Qed.

Lemma matches_pattern5_converse (ch : code_unit) (rest : js_string) :
  alnum ch = true -> matches_at pattern5 (ch :: ch :: ch :: rest) = true.
Proof.
  intros Ha. unfold matches_at, pattern5, at_least. rewrite compile_cat.
  rewrite compile_group_atom, Ha. simpl. rewrite !N.eqb_refl. simpl.
  apply orb_true_r.
Qed.

Lemma matches_pattern8_converse (ch : code_unit) (rest : js_string) :
  alnum ch = true -> matches_at pattern8 (ch :: ch :: ch :: ch :: rest) = true.
Proof.
  intros Ha. unfold matches_at, pattern8, at_least. rewrite compile_cat.
  rewrite compile_group_atom, Ha. simpl. rewrite !N.eqb_refl. simpl.
  apply orb_true_r.
Qed.

(** Pattern 5: three consecutive copies of a letter or digit; pattern 8:
    four. *)
Lemma test_pattern5_iff (s : js_string) :
  test pattern5 s = true <->
  exists before ch after,
    s = before ++ ch :: ch :: ch :: after /\ alnum ch = true.
Proof.
  rewrite test_true_iff. split.
  - intros (before & x & -> & H). apply matches_pattern5 in H.
    destruct H as (ch & rest & -> & Ha). now exists before, ch, rest.
  - intros (before & ch & after & -> & Ha).
    exists before, (ch :: ch :: ch :: after). split; [reflexivity|].
    now apply matches_pattern5_converse.
Qed.

Lemma test_pattern8_iff (s : js_string) :
  test pattern8 s = true <->
  exists before ch after,
    s = before ++ ch :: ch :: ch :: ch :: after /\ alnum ch = true.
Proof.
  rewrite test_true_iff. split.
  - intros (before & x & -> & H). apply matches_pattern8 in H.
    destruct H as (ch & rest & -> & Ha). now exists before, ch, rest.
  - intros (before & ch & after & -> & Ha).
    exists before, (ch :: ch :: ch :: ch :: after). split; [reflexivity|].
    now apply matches_pattern8_converse.
Qed.

End RegExpFacts.

(* ================================================================== *)
(** ** [evaluate] *)

Module EvaluateFacts.
Import RegExp Constants Toolkit Statements RegExpFacts.

Lemma constructor_default : constructor VUndefined = Return default.
Proof. reflexivity. Qed.

Lemma evaluation_level (this : PasswordToolKit) (l q s l' q' s' : nat) :
  Return (evaluation this l q s) = Return (evaluation this l' q' s') -> l = l'.
Proof.
  intros H. injection H as H _ _. exact H.
Qed.

(** The decision list of [evaluate] on a string, with the tests of the
    source spelled out on the code units. *)
Lemma evaluate_string (this : PasswordToolKit) (password : js_string) :
  evaluate this (VString password) =
  Return
    (if (length password <? 8)%nat then evaluation this 0 0 0
     else if negb (existsb lower password) || negb (existsb upper password)
     then evaluation this 1 1 1
     else if negb (existsb digit password) then evaluation this 2 1 2
     else if forallb alnum password then evaluation this 3 2 3
     else if test regexps.repeated password then evaluation this 4 3 4
     else if existsb (fun pattern => test pattern password) patterns
     then evaluation this 4 3 5
     else evaluation this 5 4 6).
Proof.
  unfold evaluate, evaluate_with.
  rewrite test_symbols, negb_involutive.
  unfold regexps.lowercases, regexps.uppercases, regexps.numbers.
  rewrite !test_atom.
  repeat match goal with
         | |- context [if ?b then _ else _] => destruct b
         end; reflexivity.
Qed.

(** C1 (as amended).  For every password of at least 8 code units with a
    lowercase letter, an uppercase letter and a digit, [evaluate] returns
    level 3 with the quality of index 2 and the suggestion of index 3
    exactly when every code unit of the password is an ASCII letter or
    digit: the symbol test is [/[\W_]/], for which the underscore, white
    space and every other code unit outside [A-Za-z0-9] is a symbol. *)
Theorem evaluate_missing_symbol (this : PasswordToolKit) (password : js_string) :
  8 <= length password ->
  existsb lower password = true ->
  existsb upper password = true ->
  existsb digit password = true ->
  (evaluate this (VString password) = Return (evaluation this 3 2 3)
   <-> forallb alnum password = true).
Proof.
  intros Hlen Hlower Hupper Hdigit.
  rewrite evaluate_string, Hlower, Hupper, Hdigit.
  destruct (Nat.ltb_spec (length password) 8) as [Hlt|_]; [lia|]. simpl.
  destruct (forallb alnum password).
  - split; reflexivity.
  - split; [|discriminate].
    intros H.
    repeat match type of H with
           | context [if ?b then _ else _] => destruct b
           end;
      apply evaluation_level in H; discriminate.
Qed.

Lemma evaluate_missing_symbol_witness :
  evaluate default (VString (str "Abcdefg1")) = Return (evaluation default 3 2 3)
  <-> forallb alnum (str "Abcdefg1") = true.
Proof.
  apply (evaluate_missing_symbol default (str "Abcdefg1")).
  - simpl. lia.
  - reflexivity.
  - reflexivity.
  - reflexivity.
Defined.

(** C1 as stated fails.  ["Abcdef_1"] has 8 code units, a lowercase
    letter, an uppercase letter and a digit, and no code unit that is both
    a non-word and a non-space character, so it misses a symbol in the
    sense of the specification; [evaluate] does not return level 3 for it
    but level 4 with suggestion 5, because [/[\W_]/] accepts the
    underscore. *)
Lemma underscore_is_a_symbol :
  8 <= length (str "Abcdef_1")
  /\ existsb lower (str "Abcdef_1") = true
  /\ existsb upper (str "Abcdef_1") = true
  /\ existsb digit (str "Abcdef_1") = true
  /\ existsb non_word_non_space (str "Abcdef_1") = false
  /\ evaluate default (VString (str "Abcdef_1")) <> Return (evaluation default 3 2 3)
  /\ evaluate default (VString (str "Abcdef_1")) = Return (evaluation default 4 3 5).
Proof.
  repeat split; try reflexivity.
  intros E. vm_compute in E. discriminate E.
Qed.

(** The same with a space, which the specification excludes from the
    symbols and [/[\W_]/] accepts. *)
Example space_is_a_symbol :
  existsb non_word_non_space (str "Abcdef 1") = false
  /\ test regexps.symbols (str "Abcdef 1") = true
  /\ evaluate default (VString (str "Abcdef 1")) = Return (evaluation default 4 3 5).
Proof. repeat split; reflexivity. Qed.

(** C4.  On the instance built with the default settings,
    [evaluate("Ma$bel-561")] returns level 5, the quality ["perfect"]
    (index 4) and the last suggestion (index 6): the password passes the
    length, case, digit and symbol checks, has no repeated character and
    matches none of the 8 common patterns. *)
Theorem evaluate_Ma_bel_561 :
  constructor VUndefined = Return default
  /\ evaluate default (VString (str "Ma$bel-561"))
     = Return {| level := 5;
                 quality := VString (str "perfect");
                 suggestion := VString (str "Excellent! The password is secure.") |}
  /\ evaluation default 5 4 6
     = {| level := 5;
          quality := VString (str "perfect");
          suggestion := VString (str "Excellent! The password is secure.") |}
  /\ (length (str "Ma$bel-561") <? 8)%nat = false
  /\ test regexps.lowercases (str "Ma$bel-561") = true
  /\ test regexps.uppercases (str "Ma$bel-561") = true
  /\ test regexps.numbers (str "Ma$bel-561") = true
  /\ test regexps.symbols (str "Ma$bel-561") = true
  /\ test regexps.repeated (str "Ma$bel-561") = false
  /\ NoDup (str "Ma$bel-561")
  /\ length patterns = 8
  /\ forallb (fun pattern => negb (test pattern (str "Ma$bel-561"))) patterns = true.
Proof.
  repeat lazymatch goal with
         | |- NoDup _ /\ _ => split; [repeat constructor; simpl; intuition discriminate|]
         | |- _ /\ _ => split; [vm_compute; reflexivity|]
         end.
  vm_compute. reflexivity.
Qed.

(** C5.  Patterns 5 and 8 are redundant: for every string, [evaluate] with
    the 8 patterns returns what [evaluate] returns with patterns 5 and 8
    removed, because a string that matches one of them also matches
    [regexps.repeated], which is tested first. *)
Theorem patterns_5_and_8_redundant (this : PasswordToolKit) (password : js_string) :
  evaluate this (VString password)
  = evaluate_with patterns_without_5_and_8 this (VString password)
  /\ (test pattern5 password || test pattern8 password)
     && negb (test regexps.repeated password) = false.
Proof.
  assert (H : test regexps.repeated password = false ->
              test pattern5 password = false /\ test pattern8 password = false)
    by (intros H; split; [now apply pattern5_repeated|now apply pattern8_repeated]).
  split.
  - unfold evaluate, evaluate_with.
    destruct (test regexps.repeated password).
    + reflexivity.
    + destruct H as [H5 H8]; [reflexivity|].
      unfold patterns, patterns_without_5_and_8. simpl existsb.
      rewrite H5, H8. reflexivity.
  - destruct (test regexps.repeated password).
    + apply andb_false_r.
    + destruct H as [H5 H8]; [reflexivity|]. now rewrite H5, H8.
Qed.

(** The empty string is in the first row, and a value that is not a string
    makes [evaluate] throw. *)
Example evaluate_empty_string :
  evaluate default (VString []) = Return (row_evaluation default (0, 0, 0))
  /\ evaluate default (VBool true)
     = Throw (type_error (quoted "The " "password" " value must be a string type.")).
Proof. split; reflexivity. Qed.

(** The seven rows are pairwise distinct and their levels run from 0 to 5. *)
Lemma rows_distinct : NoDup rows /\ Forall (fun row => fst (fst row) <= 5) rows.
Proof.
  split.
  - repeat constructor; simpl; intuition discriminate.
  - repeat constructor.
Qed.

End EvaluateFacts.

(* ================================================================== *)
(** ** The constructor *)

Module ConstructorFacts.
Import Toolkit Statements Functions.

Lemma has_and_not_object (props : list (string * value)) (name : string)
    (check : value -> bool) :
  has_and_not (VObject props) name check =
  Return (match lookup name props with
          | Some v => negb (check v)
          | None => false
          end).
Proof.
  unfold has_and_not, Reflect_has, Get. simpl.
  destruct (lookup name props); reflexivity.
Qed.

(** The constructor on an object, check by check. *)
Lemma constructor_object (props : list (string * value)) :
  constructor (VObject props) =
  let failed name check :=
    match lookup name props with
    | Some v => negb (check v)
    | None => false
    end in
  if failed "suggestions"%string isArray then
    Throw (type_error (quoted "The " "suggestions" " value must be an array type."))
  else if failed "qualities"%string isArray then
    Throw (type_error (quoted "The " "qualities" " value must be an array type."))
  else if failed "maximum"%string (fun v => String.eqb (typeof v) "number") then
    Throw (type_error (quoted "The " "maximum" " value must be a number type."))
  else if failed "suggestions"%string (fun v => everyString (elements v)) then
    Throw (type_error (quoted "All " "suggestions" " values must be a string type."))
  else if failed "qualities"%string (fun v => everyString (elements v)) then
    Throw (type_error (quoted "All " "qualities" " values must be a string type."))
  else if failed "suggestions"%string (fun v => Nat.eqb (length (elements v)) 7) then
    Throw (range_error (quoted "The " "suggestions" " elements number must be equal to 7."))
  else if failed "qualities"%string (fun v => Nat.eqb (length (elements v)) 5) then
    Throw (range_error (quoted "The " "qualities" " elements number must be equal to 5."))
  else
    Return {|
      suggestions := match lookup "suggestions" props with
                     | Some (VArray elems) => elems
                     | _ => Defaults.suggestions
                     end;
      qualities := match lookup "qualities" props with
                   | Some (VArray elems) => elems
                   | _ => Defaults.qualities
                   end;
      maximum := match lookup "maximum" props with
                 | Some (VNumber x) => if ToBoolean (VNumber x) then x else 30%float
                 | _ => 30%float
                 end
    |}.
Proof.
  unfold constructor.
  change (negb (String.eqb (typeof (VObject props)) "object")) with false.
  cbv iota. rewrite !has_and_not_object. unfold bind, Get. cbv zeta.
  repeat match goal with
         | |- (if ?b then _ else _) = (if ?b then _ else _) =>
             destruct b; [reflexivity|]
         end.
  destruct (lookup "suggestions" props) as [[]|];
    destruct (lookup "qualities" props) as [[]|];
    destruct (lookup "maximum" props) as [[]|]; reflexivity.
Qed.

(** What the constructor establishes: seven suggestions and five
    qualities, all strings, and a maximum that is neither zero nor NaN. *)
Lemma constructor_instance (argument : value) (this : PasswordToolKit) :
  constructor argument = Return this ->
  length (suggestions this) = 7 /\ everyString (suggestions this) = true
  /\ length (qualities this) = 5 /\ everyString (qualities this) = true
  /\ ToBoolean (VNumber (maximum this)) = true.
Proof.
  assert (Hobj : forall props, constructor (VObject props) = Return this ->
            length (suggestions this) = 7 /\ everyString (suggestions this) = true
            /\ length (qualities this) = 5 /\ everyString (qualities this) = true
            /\ ToBoolean (VNumber (maximum this)) = true).
  { intros props. rewrite constructor_object. cbv beta zeta.
    destruct (lookup "suggestions" props) as [[| | | | |sug|]|];
      destruct (lookup "qualities" props) as [[| | | | |qua|]|];
      simpl; try discriminate;
      repeat match goal with
             | |- (if negb ?b then _ else _) = _ -> _ =>
                 let E := fresh "E" in destruct b eqn:E; simpl; [|discriminate]
             | |- (if ?b then _ else _) = _ -> _ =>
                 let E := fresh "E" in destruct b eqn:E; simpl; [discriminate|]
             end;
      intros H; injection H as <-; simpl;
      rewrite ?Nat.eqb_eq in *;
      (repeat split; try assumption; try reflexivity);
      destruct (lookup "maximum" props) as [[| | |x| | |]|]; try reflexivity;
      destruct (negb (PrimFloat.eqb x 0 || PrimFloat.is_nan x)) eqn:T;
      try assumption; reflexivity. }
  destruct argument as [| | | | | |props]; try discriminate.
  - apply (Hobj []).
  - intros H. injection H as <-. repeat split; reflexivity.
  - apply Hobj.
Qed.

(** C8.  Given a [suggestions] array, the constructor raises a RangeError
    when the array holds 6 or 8 strings (the other settings being absent or
    of the right type), and a TypeError when the array holds an element
    that is not a string, whatever its length, 7 included: the check of the
    elements comes before the check of the length. *)
Theorem constructor_suggestions_errors (props : list (string * value))
    (elems : list value) :
  lookup "suggestions" props = Some (VArray elems) ->
  (everyString elems = true ->
   length elems = 6 \/ length elems = 8 ->
   qualities_and_maximum_typed props = true ->
   constructor (VObject props)
   = Throw (range_error (quoted "The " "suggestions" " elements number must be equal to 7.")))
  /\ (everyString elems = false ->
      exists msg, constructor (VObject props) = Throw (type_error msg)).
Proof.
  intros Hs. rewrite constructor_object. cbv beta zeta. rewrite Hs. simpl. split.
  - intros Hstr Hlen Hother. rewrite Hstr. simpl.
    unfold qualities_and_maximum_typed in Hother.
    apply andb_true_iff in Hother. destruct Hother as [Hq Hm].
    destruct (lookup "qualities" props) as [q|];
      [apply andb_true_iff in Hq; destruct Hq as [Hq1 Hq2]; rewrite Hq1, Hq2|];
      (destruct (lookup "maximum" props) as [m|]; [rewrite Hm|]);
      simpl;
      (replace (length elems =? 7) with false
         by (symmetry; apply Nat.eqb_neq; lia));
      reflexivity.
  - intros Hstr. rewrite Hstr. simpl.
    repeat match goal with
           | |- exists msg, (if ?b then _ else _) = _ =>
               destruct b; [eexists; reflexivity|]
           end.
    eexists; reflexivity.
Qed.

Lemma constructor_suggestions_errors_witness :
  constructor
    (VObject [("suggestions"%string,
               VArray (map (fun s => VString (str s))
                         (["a"; "b"; "c"; "d"; "e"; "f"])%string))])
  = Throw (range_error (quoted "The " "suggestions" " elements number must be equal to 7."))
  /\ exists msg,
      constructor
        (VObject [("suggestions"%string,
                   VArray (map (fun s => VString (str s))
                             (["a"; "b"; "c"; "d"; "e"; "f"])%string
                           ++ [VNumber 2%float]))])
      = Throw (type_error msg).
Proof.
  split.
  - apply (proj1 (constructor_suggestions_errors
                    [("suggestions"%string,
                      VArray (map (fun s => VString (str s))
                                (["a"; "b"; "c"; "d"; "e"; "f"])%string))]
                    eq_refl)).
    + reflexivity.
    + left. reflexivity.
    + reflexivity.
  - apply (proj2 (constructor_suggestions_errors
                    [("suggestions"%string,
                      VArray (map (fun s => VString (str s))
                                (["a"; "b"; "c"; "d"; "e"; "f"])%string
                              ++ [VNumber 2%float]))]
                    eq_refl)).
    reflexivity.
Defined.

(** The settings of the tests of the repository: seven strings but the
    last, 6 strings, 8 strings. *)
Example constructor_suggestions_tests :
  let strings n := map (fun _ => VString (str "tip")) (seq 0 n) in
  let settings elems := VObject [("suggestions"%string, VArray elems)] in
  constructor (settings (strings 6 ++ [VNumber 2%float]))
  = Throw (type_error (quoted "All " "suggestions" " values must be a string type."))
  /\ constructor (settings (strings 6))
     = Throw (range_error (quoted "The " "suggestions" " elements number must be equal to 7."))
  /\ constructor (settings (strings 8))
     = Throw (range_error (quoted "The " "suggestions" " elements number must be equal to 7."))
  /\ exists this, constructor (settings (strings 7)) = Return this.
Proof. repeat split; try reflexivity. eexists; reflexivity. Qed.

End ConstructorFacts.

(* ================================================================== *)
(** ** Comparisons of numbers *)

Module NumberFacts.

Lemma SFcompare_antisym (a b : spec_float) :
  SFcompare b a = option_map CompOpp (SFcompare a b).
Proof.
  destruct a as [sa|sa| |sa ma ea], b as [sb|sb| |sb mb eb]; simpl;
    try destruct sa; try destruct sb; try reflexivity;
    rewrite (Z.compare_antisym ea eb); destruct (ea ?= eb)%Z; simpl;
    try reflexivity;
    pose proof (Pos.compare_cont_antisym ma mb Eq) as P; simpl in P;
    rewrite <- P; destruct (Pos.compare_cont Eq ma mb); reflexivity.
Qed.

Lemma SFcompare_refl (a : spec_float) :
  a <> S754_nan -> SFcompare a a = Some Eq.
Proof.
  destruct a as [s|s| |s m e]; simpl; intros H; try destruct s;
    try reflexivity; try congruence;
    rewrite Z.compare_refl, Pos.compare_cont_refl; reflexivity.
Qed.

Lemma SFcompare_nan (a b : spec_float) :
  SFcompare a b = None <-> a = S754_nan \/ b = S754_nan.
Proof.
  destruct a as [sa|sa| |sa ma ea], b as [sb|sb| |sb mb eb]; simpl;
    split; intros H; try discriminate; try tauto;
    destruct H as [H|H]; discriminate.
Qed.

Lemma is_nan_spec (x : float) :
  PrimFloat.is_nan x = true <-> Prim2SF x = S754_nan.
Proof.
  unfold PrimFloat.is_nan. rewrite eqb_spec. unfold SFeqb. split.
  - intros H. destruct (Prim2SF x) eqn:E; try reflexivity;
      rewrite SFcompare_refl in H by discriminate; discriminate.
  - intros ->. reflexivity.
Qed.

(** [x <= y] excludes [y < x]. *)
Lemma leb_not_ltb (x y : float) :
  PrimFloat.leb x y = true -> PrimFloat.ltb y x = false.
Proof.
  rewrite leb_spec, ltb_spec. unfold SFleb, SFltb.
  rewrite (SFcompare_antisym (Prim2SF x) (Prim2SF y)).
  destruct (SFcompare (Prim2SF x) (Prim2SF y)) as [[]|]; simpl; congruence.
Qed.

(** Between numbers, none of which is NaN, [x < y] fails exactly when
    [y <= x]. *)
Lemma not_ltb_leb (x y : float) :
  PrimFloat.is_nan x = false -> PrimFloat.is_nan y = false ->
  PrimFloat.ltb x y = false -> PrimFloat.leb y x = true.
Proof.
  intros Hx Hy. rewrite leb_spec, ltb_spec. unfold SFleb, SFltb.
  rewrite (SFcompare_antisym (Prim2SF x) (Prim2SF y)).
  destruct (SFcompare (Prim2SF x) (Prim2SF y)) as [[]|] eqn:E; simpl;
    try congruence.
  apply SFcompare_nan in E. rewrite <- !is_nan_spec in E.
  destruct E; congruence.
Qed.

Lemma ltb_irrefl (x : float) : PrimFloat.ltb x x = false.
Proof.
  rewrite ltb_spec. unfold SFltb.
  destruct (Prim2SF x) eqn:E; try reflexivity;
    rewrite SFcompare_refl by discriminate; reflexivity.
Qed.

(** A comparison with NaN is false. *)
Lemma ltb_nan_l (y : float) : PrimFloat.ltb nan y = false.
Proof.
  rewrite ltb_spec. reflexivity.
Qed.

Lemma ltb_nan_r (x : float) : PrimFloat.ltb x nan = false.
Proof.
  rewrite ltb_spec. unfold SFltb.
  change (Prim2SF nan) with S754_nan.
  destruct (Prim2SF x); reflexivity.
Qed.

End NumberFacts.

(* ================================================================== *)
(** ** [checkOptions] *)

Module CheckOptionsFacts.
Import Toolkit Statements Functions NumberFacts.

(** [checkOptions] on an object, check by check. *)
Lemma checkOptions_object (this : PasswordToolKit) (props : list (string * value)) :
  checkOptions this (VObject props) =
  match lookup "size" props with
  | None => invalid (quoted "The " "size" " property is required.")
  | Some size =>
      match ToNumber size with
      | None => Unmodelled
      | Some x =>
          if PrimFloat.ltb x 1 then Return too_small
          else if PrimFloat.ltb (maximum this) x then Return too_large
          else if flag_untyped props "numbers" then
            invalid (quoted "The " "numbers" " option must be a boolean.")
          else if flag_untyped props "symbols" then
            invalid (quoted "The " "symbols" " option must be a boolean.")
          else if flag_untyped props "uppercases" then
            invalid (quoted "The " "uppercases" " option must be a boolean.")
          else if flag_untyped props "lowercases" then
            invalid (quoted "The " "lowercases" " option must be a boolean.")
          else if negb (flag_set props "numbers") && negb (flag_set props "symbols")
                  && negb (flag_set props "uppercases")
                  && negb (flag_set props "lowercases")
          then Return no_option
          else Return valid
      end
  end.
Proof.
  unfold checkOptions.
  change (negb (String.eqb (typeof (VObject props)) "object")) with false.
  cbv iota.
  change (Reflect_has (VObject props) "size")
    with (Return (match lookup "size" props with Some _ => true | None => false end)).
  unfold less_than, greater_than, Get.
  destruct (lookup "size" props) as [size|]; [|reflexivity].
  unfold bind at 1. cbv iota beta. unfold negb at 1. cbv iota.
  destruct (ToNumber size) as [x|]; [|reflexivity].
  simpl of_option. unfold bind at 1 2 3. cbv iota beta.
  destruct (PrimFloat.ltb x 1); [reflexivity|].
  unfold bind at 1 2 3. cbv iota beta.
  destruct (PrimFloat.ltb (maximum this) x); [reflexivity|].
  rewrite !ConstructorFacts.has_and_not_object.
  unfold bind, flag_untyped, flag_set.
  destruct (lookup "numbers" props) as [n|];
    destruct (lookup "symbols" props) as [s|];
    destruct (lookup "uppercases" props) as [u|];
    destruct (lookup "lowercases" props) as [l|];
    repeat match goal with
           | |- (if ?b then _ else _) = (if ?b then _ else _) =>
               destruct b; [reflexivity|]
           end;
    reflexivity.
Qed.

(** C7 (as amended).  The checks run in a fixed order and stop at the first
    failure: whatever the instance and the other properties of the request,
    a size of 0 is refused with the reason of the check [size >= 1]; and
    when [maximum + 1] is at least 1 and greater than [maximum] (as for the
    default maximum 30), a size of [maximum + 1] is refused with the reason
    of the check [size <= maximum].  The checks of the flags come later. *)
Theorem checkOptions_size_checks_first (this : PasswordToolKit)
    (props : list (string * value)) :
  (lookup "size" props = Some (VNumber 0%float) ->
   checkOptions this (VObject props) = Return too_small)
  /\ (lookup "size" props = Some (VNumber (maximum this + 1)%float) ->
      PrimFloat.leb 1 (maximum this + 1) = true ->
      PrimFloat.ltb (maximum this) (maximum this + 1) = true ->
      checkOptions this (VObject props) = Return too_large).
Proof.
  split.
  - intros Hs. rewrite checkOptions_object, Hs. reflexivity.
  - intros Hs H1 Hm. rewrite checkOptions_object, Hs. cbn [ToNumber].
    rewrite (leb_not_ltb H1), Hm. reflexivity.
Qed.

Lemma checkOptions_size_checks_first_witness :
  checkOptions default (VObject [("size"%string, VNumber 0%float)]) = Return too_small
  /\ checkOptions default (VObject [("size"%string, VNumber 31%float)])
     = Return too_large.
Proof.
  split.
  - apply (proj1 (checkOptions_size_checks_first default
                    [("size"%string, VNumber 0%float)])).
    reflexivity.
  - apply (proj2 (checkOptions_size_checks_first default
                    [("size"%string, VNumber (maximum default + 1)%float)]));
      reflexivity.
Defined.

(** C7 as stated fails.  The constructor accepts the settings
    [{ maximum: -5 }]; on that instance [maximum + 1] is -4, and
    [checkOptions({ size: -4 })] stops at the check [size >= 1], so its
    reason is not the one of the maximum. *)
Lemma checkOptions_negative_maximum :
  constructor (VObject [("maximum"%string, VNumber (-5)%float)])
  = Return (with_maximum (-5)%float)
  /\ (maximum (with_maximum (-5)%float) + 1)%float = (-4)%float
  /\ checkOptions (with_maximum (-5)%float)
       (VObject [("size"%string, VNumber (maximum (with_maximum (-5)%float) + 1)%float)])
     = Return too_small
  /\ checkOptions (with_maximum (-5)%float)
       (VObject [("size"%string, VNumber (maximum (with_maximum (-5)%float) + 1)%float)])
     <> Return too_large.
Proof.
  repeat split. discriminate.
Qed.

(** Where [maximum + 1] is not greater than [maximum] (from 2^53 on, and for
    an infinite maximum), the size [maximum + 1] passes both size checks. *)
Example checkOptions_large_maximum :
  constructor (VObject [("maximum"%string, VNumber 9007199254740992%float)])
  = Return (with_maximum 9007199254740992%float)
  /\ checkOptions (with_maximum 9007199254740992%float)
       (VObject [("size"%string, VNumber (9007199254740992 + 1)%float)])
     = Return no_option
  /\ checkOptions (with_maximum infinity)
       (VObject [("size"%string, VNumber (infinity + 1)%float)])
     = Return no_option.
Proof. repeat split. Qed.

(** For the integer maxima from 0 to 1000, [maximum + 1] is at least 1 and
    greater than [maximum]. *)
Example maximum_plus_one_small :
  forallb (fun n => let m := number_of_nat n in
                    PrimFloat.leb 1 (m + 1) && PrimFloat.ltb m (m + 1))
          (seq 0 1001) = true.
Proof. vm_compute. reflexivity. Qed.

(** C10.  The settings [{ maximum: 0 }] are accepted and give the instance
    of the default settings, whose maximum is 30: [settings.maximum || 30]
    is 30 for every maximum that is falsy (0, -0 and NaN), not only for an
    absent one.  On an instance whose maximum is 30, [checkOptions] accepts
    every size from 1 to 30 (with a flag set) and refuses 31 for being above
    the maximum. *)
Theorem constructor_maximum_zero :
  constructor (VObject [("maximum"%string, VNumber 0%float)]) = Return default
  /\ maximum default = 30%float
  /\ (forall (props : list (string * value)) (x : float) (this : PasswordToolKit),
        lookup "maximum" props = Some (VNumber x) ->
        ToBoolean (VNumber x) = false ->
        constructor (VObject props) = Return this ->
        maximum this = 30%float)
  /\ (forall (this : PasswordToolKit) (size : float)
             (numbers symbols uppercases lowercases : bool),
        maximum this = 30%float ->
        PrimFloat.leb 1 size = true ->
        PrimFloat.leb size 30 = true ->
        numbers || symbols || uppercases || lowercases = true ->
        checkOptions this
          (request (VNumber size) numbers symbols uppercases lowercases)
        = Return valid)
  /\ (forall this : PasswordToolKit,
        maximum this = 30%float ->
        checkOptions this (request (VNumber 31%float) true true true true)
        = Return too_large).
Proof.
  split; [reflexivity|]. split; [reflexivity|]. split; [|split].
  - intros props x this Hx Hfalsy.
    rewrite ConstructorFacts.constructor_object. cbv beta zeta.
    rewrite Hx, Hfalsy.
    repeat match goal with
           | |- (if ?b then _ else _) = _ -> _ => destruct b; [discriminate|]
           end.
    intros H. injection H as <-. reflexivity.
  - intros this size numbers symbols uppercases lowercases Hmax H1 H30 Hflag.
    unfold request. rewrite checkOptions_object.
    cbn [lookup String.eqb Ascii.eqb Bool.eqb ToNumber].
    rewrite (leb_not_ltb H1), Hmax, (leb_not_ltb H30).
    destruct numbers, symbols, uppercases, lowercases;
      try discriminate Hflag; reflexivity.
  - intros this Hmax. unfold request. rewrite checkOptions_object.
    cbn [lookup String.eqb Ascii.eqb Bool.eqb ToNumber]. rewrite Hmax.
    reflexivity.
Qed.

Lemma constructor_maximum_zero_witness :
  maximum default = 30%float
  /\ checkOptions default (request (VNumber 30%float) true false false false)
     = Return valid.
Proof.
  split.
  - apply (proj1 (proj2 (proj2 constructor_maximum_zero))
             [("maximum"%string, VNumber 0%float)] 0%float default);
      reflexivity.
  - apply (proj1 (proj2 (proj2 (proj2 constructor_maximum_zero))) default);
      reflexivity.
Defined.

(** The other falsy maxima. *)
Example constructor_maximum_falsy :
  constructor (VObject [("maximum"%string, VNumber (-0)%float)]) = Return default
  /\ constructor (VObject [("maximum"%string, VNumber nan)]) = Return default.
Proof. split; reflexivity. Qed.

(** What [checkOptions] accepts: an object with a [size] that is not below
    1 and not above the maximum for the comparisons of the language, whose
    flags are booleans when present, one of them being true. *)
Lemma checkOptions_valid_iff (this : PasswordToolKit) (options : value) :
  checkOptions this options = Return valid <->
  exists props size x,
    options = VObject props
    /\ lookup "size" props = Some size
    /\ ToNumber size = Some x
    /\ PrimFloat.ltb x 1 = false
    /\ PrimFloat.ltb (maximum this) x = false
    /\ flag_untyped props "numbers" = false
    /\ flag_untyped props "symbols" = false
    /\ flag_untyped props "uppercases" = false
    /\ flag_untyped props "lowercases" = false
    /\ flag_set props "numbers" || flag_set props "symbols"
       || flag_set props "uppercases" || flag_set props "lowercases" = true.
Proof.
  split.
  - destruct options as [| | | | | |props]; try discriminate.
    rewrite checkOptions_object.
    destruct (lookup "size" props) as [size|] eqn:Hs; [|discriminate].
    destruct (ToNumber size) as [x|] eqn:Hx; [|discriminate].
    destruct (PrimFloat.ltb x 1) eqn:E1; [discriminate|].
    destruct (PrimFloat.ltb (maximum this) x) eqn:E2; [discriminate|].
    destruct (flag_untyped props "numbers") eqn:F1; [discriminate|].
    destruct (flag_untyped props "symbols") eqn:F2; [discriminate|].
    destruct (flag_untyped props "uppercases") eqn:F3; [discriminate|].
    destruct (flag_untyped props "lowercases") eqn:F4; [discriminate|].
    destruct (flag_set props "numbers") eqn:S1,
             (flag_set props "symbols") eqn:S2,
             (flag_set props "uppercases") eqn:S3,
             (flag_set props "lowercases") eqn:S4;
      simpl; try discriminate; intros _;
      exists props, size, x; repeat split; try assumption;
      rewrite S1, S2, S3, S4; reflexivity.
  - intros (props & size & x & -> & Hs & Hx & E1 & E2 & F1 & F2 & F3 & F4 & Hset).
    rewrite checkOptions_object, Hs, Hx, E1, E2, F1, F2, F3, F4.
    destruct (flag_set props "numbers"), (flag_set props "symbols"),
             (flag_set props "uppercases"), (flag_set props "lowercases");
      try discriminate Hset; reflexivity.
Qed.

(** For a size that is a number other than NaN (the maximum of an instance
    is never NaN), the two comparisons amount to [1 <= size <= maximum]. *)
Lemma checkOptions_valid_number (this : PasswordToolKit)
    (props : list (string * value)) (x : float) :
  lookup "size" props = Some (VNumber x) ->
  PrimFloat.is_nan x = false ->
  PrimFloat.is_nan (maximum this) = false ->
  (checkOptions this (VObject props) = Return valid <->
   PrimFloat.leb 1 x = true
   /\ PrimFloat.leb x (maximum this) = true
   /\ flag_untyped props "numbers" = false
   /\ flag_untyped props "symbols" = false
   /\ flag_untyped props "uppercases" = false
   /\ flag_untyped props "lowercases" = false
   /\ flag_set props "numbers" || flag_set props "symbols"
      || flag_set props "uppercases" || flag_set props "lowercases" = true).
Proof.
  intros Hs Hnan Hmax.
  rewrite checkOptions_valid_iff. split.
  - intros (props' & size & x' & E & Hs' & Hx & E1 & E2 & H).
    injection E as <-. rewrite Hs in Hs'. injection Hs' as <-.
    injection Hx as <-.
    split; [apply not_ltb_leb; auto|].
    split; [|exact H].
    apply not_ltb_leb; auto.
  - intros (H1 & Hm & H).
    exists props, (VNumber x), x. repeat split; try tauto.
    + now apply leb_not_ltb.
    + now apply leb_not_ltb.
Qed.

(** C6, at the input where the code departs from it.  The request
    [{ size: NaN, numbers: true }] is an object with a [size] property and a
    flag that is [true], and NaN satisfies neither [1 <= size] nor
    [size <= maximum]; every instance accepts it all the same, because both
    size checks are written as comparisons that refuse ([size < 1],
    [size > maximum]) and every comparison with NaN is false. *)
Theorem checkOptions_accepts_NaN (this : PasswordToolKit) :
  checkOptions this (request (VNumber nan) true false false false) = Return valid
  /\ PrimFloat.leb 1 nan = false
  /\ PrimFloat.leb nan (maximum this) = false
  /\ typeof (VNumber nan) = "number"%string.
Proof.
  split; [|split; [reflexivity|split; [|reflexivity]]].
  - unfold request. rewrite checkOptions_object.
    cbn [lookup String.eqb Ascii.eqb Bool.eqb ToNumber].
    rewrite ltb_nan_l, ltb_nan_r. reflexivity.
  - rewrite leb_spec. reflexivity.
Qed.

(** The sizes 1 and [maximum] are accepted on every instance whose maximum
    is at least 1. *)
Lemma checkOptions_boundaries (this : PasswordToolKit)
    (numbers symbols uppercases lowercases : bool) :
  PrimFloat.leb 1 (maximum this) = true ->
  numbers || symbols || uppercases || lowercases = true ->
  checkOptions this (request (VNumber 1%float) numbers symbols uppercases lowercases)
  = Return valid
  /\ checkOptions this
       (request (VNumber (maximum this)) numbers symbols uppercases lowercases)
     = Return valid.
Proof.
  intros Hmax Hflag. unfold request. rewrite !checkOptions_object.
  cbn [lookup String.eqb Ascii.eqb Bool.eqb ToNumber].
  rewrite (leb_not_ltb Hmax), (ltb_irrefl (maximum this)), (ltb_irrefl 1%float).
  destruct numbers, symbols, uppercases, lowercases;
    try discriminate Hflag; split; reflexivity.
Qed.

(** The requests of the tests of the repository. *)
Example checkOptions_tests :
  checkOptions default (VString (str "invalid options"))
  = invalid (str "Options must be an object.")
  /\ checkOptions default (VObject [("numbers"%string, VBool true)])
     = invalid (quoted "The " "size" " property is required.")
  /\ checkOptions default (VObject [("size"%string, VNumber 50%float)])
     = Return too_large
  /\ checkOptions default
       (VObject [("size"%string, VNumber 8%float);
                 ("numbers"%string, VString (str "invalid"))])
     = invalid (quoted "The " "numbers" " option must be a boolean.")
  /\ checkOptions default (request (VNumber 8%float) false false false false)
     = Return no_option
  /\ checkOptions default (request (VNumber 10%float) true true true true)
     = Return valid.
Proof. repeat split; reflexivity. Qed.

End CheckOptionsFacts.

(* ================================================================== *)
(** ** [generate] *)

Module GenerateFacts.
Import Toolkit Statements Functions NumberFacts CheckOptionsFacts.

Lemma floor_mul_lt (r : random_number) (size : nat) :
  in_unit_interval r = true -> 0 < size -> floor_mul r size < size.
Proof.
  unfold in_unit_interval, floor_mul. intros Hr Hsize.
  apply Nat.ltb_lt in Hr.
  apply Nat.Div0.div_lt_upper_bound. nia.
Qed.

Lemma charsToArray_split (selected : list (string * js_string)) :
  charsToArray selected = split (flat_map (fun kv => snd kv) selected).
Proof.
  unfold charsToArray, split.
  induction selected as [|kv selected IH]; simpl.
  - reflexivity.
  - rewrite IH, map_app. reflexivity.
Qed.

(** Reading one-code-unit strings at indices inside the pool and joining
    them gives the code units at those indices. *)
Lemma join_split (pool : js_string) (index : nat -> nat) (positions : list nat) :
  (forall i, index i < length pool) ->
  join (map (fun i => nth_error (split pool) (index i)) positions)
  = map (fun i => nth (index i) pool 0%N) positions.
Proof.
  intros Hi. unfold join, split.
  induction positions as [|i positions IH]; simpl.
  - reflexivity.
  - rewrite IH, nth_error_map.
    rewrite (nth_error_nth' pool 0%N (Hi i)). reflexivity.
Qed.

Lemma flag_set_true (props : list (string * value)) (name : string) :
  flag_untyped props name = false -> flag_set props name = flag_true props name.
Proof.
  unfold flag_untyped, flag_set, flag_true.
  destruct (lookup name props) as [[| |[]| | | |]|]; simpl;
    intros H; try discriminate; reflexivity.
Qed.

Lemma getSelectedChars_object (props : list (string * value)) :
  flat_map (fun kv => snd kv) (getSelectedChars (VObject props))
  = (if flag_set props "numbers" then numbers else [])
    ++ (if flag_set props "symbols" then symbols else [])
    ++ (if flag_set props "uppercases" then uppercases else [])
    ++ (if flag_set props "lowercases" then lowercases else []).
Proof.
  unfold getSelectedChars, flag_set, Get.
  destruct (lookup "numbers" props) as [n|];
    destruct (lookup "symbols" props) as [s|];
    destruct (lookup "uppercases" props) as [u|];
    destruct (lookup "lowercases" props) as [l|];
    cbn [ToBoolean];
    repeat match goal with
           | |- context [ToBoolean ?v] => destruct (ToBoolean v)
           end;
    cbn [flat_map snd app]; rewrite ?app_nil_r; reflexivity.
Qed.

(** [generate] returns [null] exactly when [checkOptions] returns a result
    with [ok: false]. *)
Lemma generate_null_iff (this : PasswordToolKit) (options : value)
    (random : nat -> random_number) :
  generate this options random = Return VNull <->
  exists check, checkOptions this options = Return check /\ ok check = false.
Proof.
  unfold generate.
  destruct (checkOptions this options) as [check|e|]; simpl.
  - destruct (ok check) eqn:E; simpl.
    + split.
      * destruct (Array_ (Get options "size")); simpl; discriminate.
      * intros (check' & H & H'). injection H as <-. congruence.
    + split; [|reflexivity]. intros _. now exists check.
  - split; [discriminate|]. intros (check & H & _). discriminate.
  - split; [discriminate|]. intros (check & H & _). discriminate.
Qed.

(** For a request that [checkOptions] accepts and whose size is an integer
    number (an array length), [generate] returns a string of that length
    made of code units of the alphabets whose flags are [true], whatever
    the numbers that [Math.random] returns in [0, 1). *)
Lemma generate_integer_size (this : PasswordToolKit)
    (props : list (string * value)) (x : float) (n : N)
    (random : nat -> random_number) :
  checkOptions this (VObject props) = Return valid ->
  lookup "size" props = Some (VNumber x) ->
  uint32_of x = Some n ->
  (forall i, in_unit_interval (random i) = true) ->
  exists password,
    generate this (VObject props) random = Return (VString password)
    /\ length password = N.to_nat n
    /\ Forall (fun c => In c (selected_alphabets props)) password.
Proof.
  intros Hvalid Hsize Hn Hrandom.
  pose proof (proj1 (checkOptions_valid_iff this (VObject props)) Hvalid)
    as (props' & size & x' & E & _ & _ & _ & _ & F1 & F2 & F3 & F4 & Hset).
  injection E as <-.
  assert (Hpool : flat_map (fun kv => snd kv) (getSelectedChars (VObject props))
                  = selected_alphabets props).
  { rewrite getSelectedChars_object. unfold selected_alphabets.
    now rewrite !flag_set_true by assumption. }
  assert (Hpos : 0 < length (selected_alphabets props)).
  { rewrite !flag_set_true in Hset by assumption.
    unfold selected_alphabets. rewrite !length_app.
    destruct (flag_true props "numbers"); [simpl; lia|].
    destruct (flag_true props "symbols"); [simpl; lia|].
    destruct (flag_true props "uppercases"); [simpl; lia|].
    destruct (flag_true props "lowercases"); [simpl; lia|].
    discriminate Hset. }
  unfold generate. rewrite Hvalid. cbn [bind ok valid negb].
  unfold Get. rewrite Hsize. unfold Array_. rewrite Hn. cbn [bind].
  unfold fill. rewrite length_map, repeat_length, charsToArray_split, Hpool.
  unfold split at 2. rewrite length_map.
  set (index := fun i => getRandomNumber (length (selected_alphabets props)) (random i)).
  assert (Hindex : forall i, index i < length (selected_alphabets props)).
  { intros i. apply floor_mul_lt; [apply Hrandom|exact Hpos]. }
  exists (map (fun i => nth (index i) (selected_alphabets props) 0%N)
            (seq 0 (N.to_nat n))).
  split; [|split].
  - f_equal. f_equal. apply (join_split _ index _ Hindex).
  - now rewrite length_map, length_seq.
  - apply Forall_forall. intros c Hc.
    apply in_map_iff in Hc. destruct Hc as (i & <- & _).
    apply nth_In. apply Hindex.
Qed.

(** C2, at the inputs where the code departs from it.  [checkOptions]
    accepts the request [{ size: 10.5, numbers: true, symbols: true,
    uppercases: true, lowercases: true }] (10.5 is between 1 and 30), but
    [generate] returns no string for it, of length 10.5 or any other:
    [Array(10.5)] throws a RangeError.  The same happens for the integer
    size 2^32 on an instance whose maximum is 2^32. *)
Theorem generate_fractional_size (random : nat -> random_number) :
  checkOptions default (request (VNumber 10.5%float) true true true true) = Return valid
  /\ generate default (request (VNumber 10.5%float) true true true true) random
     = Throw {| kind := RangeError; message := str "Invalid array length" |}
  /\ (forall password,
        generate default (request (VNumber 10.5%float) true true true true) random
        <> Return (VString password))
  /\ constructor (VObject [("maximum"%string, VNumber 4294967296%float)])
     = Return (with_maximum 4294967296%float)
  /\ checkOptions (with_maximum 4294967296%float)
       (request (VNumber 4294967296%float) true true true true)
     = Return valid
  /\ generate (with_maximum 4294967296%float)
       (request (VNumber 4294967296%float) true true true true) random
     = Throw {| kind := RangeError; message := str "Invalid array length" |}.
Proof.
  split; [reflexivity|]. split; [reflexivity|]. split.
  - intros password. discriminate.
  - repeat split.
Qed.

(** C3, at the input where the code departs from it.  For the request
    [{ size: 2.5, numbers: true }], [checkOptions] returns
    [{ ok: true, reason: null }] and [generate] raises a RangeError: it
    returns neither [null] nor a string. *)
Theorem generate_raises_after_valid_check (random : nat -> random_number) :
  checkOptions default
    (VObject [("size"%string, VNumber 2.5%float); ("numbers"%string, VBool true)])
  = Return valid
  /\ generate default
       (VObject [("size"%string, VNumber 2.5%float); ("numbers"%string, VBool true)])
       random
     = Throw {| kind := RangeError; message := str "Invalid array length" |}.
Proof. split; reflexivity. Qed.

(** The same happens for a size that is NaN. *)
Example generate_NaN_size (random : nat -> random_number) :
  generate default (request (VNumber nan) true false false false) random
  = Throw {| kind := RangeError; message := str "Invalid array length" |}.
Proof. reflexivity. Qed.

(** The tests of the repository: a size of 10 gives a string of 10 code
    units, a size of 0 gives [null]. *)
Example generate_tests :
  let random i := {| numerator := Nat.modulo (7 * i + 3) 11; denominator := 11 |} in
  generate default (request (VNumber 10%float) true true true true) random
  = Return (VString (str ":rJ(iA8a]0"))
  /\ generate default (request (VNumber 0%float) false false false false) random
     = Return VNull.
Proof. split; reflexivity. Qed.

End GenerateFacts.

(* ================================================================== *)
(** ** The regular expressions of [src/constants.js], in plain terms *)

Module PatternProperties.
Import RegExp Constants Toolkit Statements RegExpFacts.

Lemma has_run_shorter (p : code_unit -> bool) (n m : nat) (s : js_string) :
  m <= n -> has_run p n s -> has_run p m s.
Proof.
  intros Hmn (before & w & after & -> & Hlen & Hw).
  exists before, (firstn m w), (skipn m w ++ after). split; [|split].
  - rewrite <- (firstn_skipn m w) at 1. now rewrite <- !app_assoc.
  - rewrite length_firstn. lia.
  - rewrite <- (firstn_skipn m w), forallb_app in Hw.
    now apply andb_true_iff in Hw.
Qed.

Lemma has_triple_repeat (s : js_string) : has_triple s -> has_repeat s.
Proof.
  intros (before & ch & after & -> & Ha).
  exists before, ch, [], (ch :: after). split; [reflexivity|].
  split; [now apply alnum_dot|reflexivity].
Qed.

Lemma has_repeat_app_l (l r : js_string) : has_repeat l -> has_repeat (l ++ r).
Proof.
  intros (before & ch & mid & after & -> & H).
  exists before, ch, mid, (after ++ r). split; [|exact H].
  rewrite <- !app_assoc. simpl. now rewrite <- !app_assoc.
Qed.

Lemma has_repeat_app_r (l r : js_string) : has_repeat r -> has_repeat (l ++ r).
Proof.
  intros (before & ch & mid & after & -> & H).
  exists (l ++ before), ch, mid, after. split; [|exact H].
  now rewrite <- !app_assoc.
Qed.

(** X1.  [regexps.repeated] matches a string exactly when some code unit,
    other than a line terminator, occurs twice with no line terminator in
    between; on a string without line terminator, that is exactly when the
    string has a duplicate. *)
Theorem repeated_detects_duplicates (s : js_string) :
  (test regexps.repeated s = true <-> has_repeat s)
  /\ (forallb dot s = true -> (test regexps.repeated s = true <-> ~ NoDup s)).
Proof.
  split.
  - apply test_repeated_iff.
  - apply test_repeated_NoDup.
Qed.

Lemma repeated_detects_duplicates_witness :
  test regexps.repeated (str "MyStr0ngP@ssword!") = true
  <-> ~ NoDup (str "MyStr0ngP@ssword!").
Proof.
  apply (proj2 (repeated_detects_duplicates (str "MyStr0ngP@ssword!"))).
  reflexivity.
Defined.

(** X2.  [regexps.repeated] never pairs two copies across a line
    terminator: on two strings joined by a line terminator, it matches
    exactly when it matches one of the two. *)
Theorem repeated_stops_at_line_terminators (l r : js_string) (sep : code_unit) :
  line_terminator sep = true ->
  test regexps.repeated (l ++ sep :: r)
  = test regexps.repeated l || test regexps.repeated r.
Proof.
  intros Hsep.
  assert (Hdot : dot sep = false) by (unfold dot; now rewrite Hsep).
  apply eq_true_iff_eq. rewrite orb_true_iff, !test_repeated_iff. split.
  - intros (before & ch & mid & after & E & Hch & Hmid).
    symmetry in E.
    apply app_eq_app in E. destruct E as (k & [[E1 E]|[E1 E]]).
    + (* the first copy is after [sep] *)
      destruct k as [|c k]; simpl in E.
      * injection E as E2 E3. congruence.
      * injection E as E2 E3. subst. right.
        do 4 eexists. split; [reflexivity|]. now split.
    + (* the first copy is before [sep] *)
      destruct k as [|c k]; simpl in E.
      * injection E as E2 E3. congruence.
      * injection E as E2 E.
        apply app_eq_app in E. destruct E as (j & [[E3 E]|[E3 E]]).
        -- (* [sep] is in [mid] *)
           destruct j as [|c' j]; simpl in E.
           ++ injection E as E4 E5. congruence.
           ++ injection E as E4 E5. subst.
              rewrite forallb_app in Hmid. simpl in Hmid.
              rewrite Hdot, andb_false_r in Hmid. discriminate.
        -- (* the second copy is before [sep] too *)
           destruct j as [|c' j]; simpl in E.
           ++ injection E as E4 E5. congruence.
           ++ injection E as E4 E5. subst. left.
              do 4 eexists. split; [reflexivity|]. now split.
  - intros [H|H].
    + now apply has_repeat_app_l.
    + apply has_repeat_app_r with (l := l ++ [sep]) in H.
      now rewrite <- app_assoc in H.
Qed.

Lemma repeated_stops_at_line_terminators_witness :
  test regexps.repeated (str "Abc1$" ++ 10%N :: str "Abc1$")
  = test regexps.repeated (str "Abc1$") || test regexps.repeated (str "Abc1$").
Proof.
  apply (repeated_stops_at_line_terminators (str "Abc1$") (str "Abc1$") 10%N).
  reflexivity.
Defined.

Lemma test_run (p : code_unit -> bool) (n : nat) (s : js_string) :
  test (exactly n (Atom p)) s = true <-> has_run p n s.
Proof. apply test_exactly_atom. Qed.

Lemma test_longer_run (p : code_unit -> bool) (n m : nat) (s : js_string) :
  m <= n ->
  test (exactly n (Atom p)) s = true -> test (exactly m (Atom p)) s = true.
Proof.
  intros Hmn H. apply test_run. apply test_run in H.
  now apply has_run_shorter with n.
Qed.

(** What the eight common patterns look for, pattern by pattern. *)
Lemma test_patterns_each (s : js_string) :
  existsb (fun pattern => test pattern s) patterns = true
  <-> has_run digit 4 s \/ has_run digit 6 s
      \/ has_run letter 4 s \/ has_run letter 6 s
      \/ has_triple s
      \/ has_adjacent letter digit s \/ has_adjacent digit letter s
      \/ (exists before ch after,
            s = before ++ ch :: ch :: ch :: ch :: after /\ alnum ch = true).
Proof.
  unfold patterns. simpl existsb. rewrite orb_false_r, !orb_true_iff.
  unfold pattern1, pattern2, pattern3, pattern4.
  rewrite !test_run, test_pattern5_iff, test_pattern6_iff, test_pattern7_iff,
    test_pattern8_iff.
  reflexivity.
Qed.

(** X3.  The eight common patterns, together, match a string exactly when
    it holds four consecutive digits, four consecutive letters, three
    consecutive copies of one letter or digit, a letter immediately followed
    by a digit, or a digit immediately followed by a letter. *)
Theorem common_patterns_meaning (s : js_string) :
  existsb (fun pattern => test pattern s) patterns = true
  <-> has_run digit 4 s \/ has_run letter 4 s \/ has_triple s
      \/ has_adjacent letter digit s \/ has_adjacent digit letter s.
Proof.
  rewrite test_patterns_each. split.
  - intros [H|[H|[H|[H|[H|[H|[H|H]]]]]]]; try tauto.
    + left. now apply has_run_shorter with 6; [lia|].
    + right. left. now apply has_run_shorter with 6; [lia|].
    + destruct H as (before & ch & after & -> & Ha).
      right. right. left. now exists before, ch, (ch :: after).
  - tauto.
Qed.

(** X4.  Patterns 2, 4, 5 and 8 never decide: [evaluate] returns the same
    result with the patterns 1, 3, 6 and 7 alone.  Six digits hold four
    digits, six letters hold four letters, and a string with three copies
    of a character in a row is caught by [regexps.repeated] before the
    loop. *)
Theorem patterns_1_3_6_7_suffice (this : PasswordToolKit) (password : value) :
  evaluate this password = evaluate_with patterns_1_3_6_7 this password.
Proof.
  destruct password as [| | | |s| |]; try reflexivity.
  unfold evaluate, evaluate_with.
  destruct (test regexps.repeated s) eqn:R.
  - reflexivity.
  - unfold patterns, patterns_1_3_6_7. simpl existsb.
    rewrite (pattern5_repeated s R), (pattern8_repeated s R).
    pose proof (@test_longer_run digit 6 4 s) as H2.
    pose proof (@test_longer_run letter 6 4 s) as H4.
    fold pattern1 pattern2 in H2. fold pattern3 pattern4 in H4.
    destruct (test pattern2 s); [rewrite H2 by (lia || reflexivity)|];
      (destruct (test pattern4 s); [rewrite H4 by (lia || reflexivity)|]);
      destruct (test pattern1 s), (test pattern3 s), (test pattern6 s),
               (test pattern7 s); reflexivity.
Qed.

(** Without a repeated code unit, the patterns that are left look for a
    sequence. *)
Lemma existsb_common_patterns (s : js_string) :
  ~ has_repeat s ->
  existsb (fun pattern => test pattern s) patterns = true <-> has_sequence s.
Proof.
  intros R. rewrite test_patterns_each. unfold has_sequence.
  pose proof (@has_triple_repeat s) as T. split.
  - intros [H|[H|[H|[H|[H|[H|[H|H]]]]]]]; try tauto.
    + left. now apply has_run_shorter with 6; [lia|].
    + right. left. now apply has_run_shorter with 6; [lia|].
    + destruct H as (before & ch & after & -> & Ha).
      exfalso. apply R, T. now exists before, ch, (ch :: after).
  - tauto.
Qed.

End PatternProperties.

(* ================================================================== *)
(** ** Properties of [evaluate] *)

Module EvaluateProperties.
Import RegExp Constants Functions Toolkit Statements RegExpFacts EvaluateFacts ConstructorFacts PatternProperties.
(** The level of each of the seven results. *)
Lemma evaluate_level (this : PasswordToolKit) (s : js_string) :
  exists e, evaluate this (VString s) = Return e
  /\ level e =
     if (length s <? 8)%nat then 0
     else if negb (existsb lower s) || negb (existsb upper s) then 1
     else if negb (existsb digit s) then 2
     else if forallb alnum s then 3
     else if test regexps.repeated s then 4
     else if existsb (fun pattern => test pattern s) patterns then 4
     else 5.
Proof.
  rewrite evaluate_string. eexists. split; [reflexivity|].
  repeat match goal with
         | |- context [if ?b then _ else _] => destruct b
         end; reflexivity.
Qed.

(** X5.  The levels form a ladder.  On every string [evaluate] returns a
    level of at most 5; the level is at least 1 exactly when the string has
    8 code units or more, at least 2 when it also has a lowercase and an
    uppercase letter, at least 3 when it also has a digit, and at least 4
    when it also has a code unit that is not an ASCII letter or digit. *)
Theorem evaluate_level_ladder (this : PasswordToolKit) (s : js_string) :
  exists e, evaluate this (VString s) = Return e
  /\ level e <= 5
  /\ (1 <= level e <-> 8 <= length s)
  /\ (2 <= level e <->
      8 <= length s /\ existsb lower s = true /\ existsb upper s = true)
  /\ (3 <= level e <->
      8 <= length s /\ existsb lower s = true /\ existsb upper s = true
      /\ existsb digit s = true)
  /\ (4 <= level e <->
      8 <= length s /\ existsb lower s = true /\ existsb upper s = true
      /\ existsb digit s = true /\ forallb alnum s = false).
Proof.
  destruct (evaluate_level this s) as (e & He & L).
  exists e. split; [exact He|]. rewrite L. clear.
  destruct (Nat.ltb_spec (length s) 8) as [Hlen|Hlen];
    destruct (existsb lower s), (existsb upper s), (existsb digit s),
             (forallb alnum s), (test regexps.repeated s),
             (existsb (fun pattern => test pattern s) patterns);
    simpl; intuition (try lia; try discriminate).
Qed.




End EvaluateProperties.

(* ================================================================== *)
(** ** Properties of the constructor *)

Module ConstructorProperties.
Import Functions Toolkit Statements ConstructorFacts.
(** X10.  The constructor on an argument that is not a plain object.  A
    boolean, a number and a string get the TypeError of the first check.
    No value whose [typeof] is ["object"] gets it: an array passes every
    check (it is an object with none of the three settings) and gives the
    default instance, as [undefined] does, and [null] passes the first
    check as well and makes [Reflect.has] throw a TypeError of its own. *)
Theorem constructor_argument_kinds (argument : value) :
  (typeof argument = "boolean"%string \/ typeof argument = "number"%string
   \/ typeof argument = "string"%string ->
   constructor argument
   = Throw (type_error (quoted "The " "options" " must be an object.")))
  /\ (typeof argument = "object"%string ->
      constructor argument
      <> Throw (type_error (quoted "The " "options" " must be an object.")))
  /\ (argument = VUndefined \/ isArray argument = true ->
      constructor argument = Return default)
  /\ (argument = VNull ->
      exists e, constructor argument = Throw e /\ kind e = TypeError).
Proof.
  split; [|split; [|split]].
  - destruct argument as [| |b|x|s|elems|props]; simpl typeof;
      intros [H|[H|H]]; try discriminate H; reflexivity.
  - destruct argument as [| |b|x|s|elems|props]; simpl typeof;
      intros T; try discriminate T.
    + intros H. vm_compute in H. discriminate H.
    + intros H. discriminate H.
    + rewrite constructor_object. cbv beta zeta.
      repeat match goal with
             | |- (if ?b then _ else _) <> _ => destruct b
             end;
        intros H; try discriminate H;
        apply (f_equal (fun c => match c with
                                 | Throw e => message e
                                 | _ => []
                                 end)) in H;
        vm_compute in H; discriminate H.
  - intros [->|H]; [reflexivity|].
    destruct argument; try discriminate H. reflexivity.
  - intros ->. eexists. split; reflexivity.
Qed.

Lemma constructor_argument_kinds_witness :
  constructor (VArray [VNumber 1%float]) = Return default.
Proof.
  apply (proj1 (proj2 (proj2 (constructor_argument_kinds (VArray [VNumber 1%float]))))).
  right. reflexivity.
Defined.

End ConstructorProperties.

(* ================================================================== *)
(** ** Properties of [checkOptions] *)

Module CheckOptionsProperties.
Import Functions Toolkit Statements ConstructorFacts NumberFacts CheckOptionsFacts.
Ltac in_reasons :=
  unfold reasons; cbn [In]; repeat (try (left; reflexivity); right).

(** The outcomes of [checkOptions] on the values of [Js.value], case by
    case: among them only [null] makes a step of [checkOptions] throw,
    and only a [size] that is a string, an array or an object needs a
    conversion that [ToNumber] leaves out. *)
Lemma checkOptions_cases (this : PasswordToolKit) (options : value) :
  match checkOptions this options with
  | Return r =>
      r = valid
      \/ (ok r = false /\ exists msg, reason r = VString msg /\ In msg reasons)
  | Throw e => options = VNull /\ kind e = TypeError
  | Unmodelled =>
      exists props size,
        options = VObject props /\ lookup "size" props = Some size
        /\ ToNumber size = None
  end.
Proof.
  assert (R : forall msg, In msg reasons ->
            match invalid msg with
            | Return r =>
                r = valid
                \/ (ok r = false
                    /\ exists msg, reason r = VString msg /\ In msg reasons)
            | Throw e => options = VNull /\ kind e = TypeError
            | Unmodelled =>
                exists props size,
                  options = VObject props /\ lookup "size" props = Some size
                  /\ ToNumber size = None
            end).
  { intros msg Hin. right. split; [reflexivity|]. now exists msg. }
  destruct options as [| |b|x|s|elems|props];
    try (apply R; in_reasons).
  - split; reflexivity.
  - rewrite checkOptions_object.
    destruct (lookup "size" props) as [size|] eqn:Hs; [|apply R; in_reasons].
    destruct (ToNumber size) as [x|] eqn:Hx; [|now exists props, size].
    unfold too_small, too_large, no_option.
    repeat match goal with
           | |- context [if ?b then _ else _] => destruct b
           end;
      try (apply R; in_reasons);
      try (apply (R (str "The password length must be greater than 1."));
           in_reasons);
      try (apply (R (str "The password length must be less than specified maximum."));
           in_reasons);
      try (apply (R (str "You must select at least one option to generate the password."));
           in_reasons).
    left. reflexivity.
Qed.

(** X11.  [checkOptions] reports by its result.  Whatever the instance and
    the argument, a result that is returned is either
    [{ ok: true, reason: null }] or has [ok: false] and one of the nine
    reasons as a string.  For [null], which passes the [typeof] check,
    [Reflect.has] throws a TypeError.  For every other argument that is
    [undefined], a boolean, a number, a string, an array or an object
    whose [size], when present, is [undefined], [null], a boolean or a
    number, a result is returned. *)
Theorem checkOptions_outcome (this : PasswordToolKit) (options : value) :
  (exists e, checkOptions this VNull = Throw e /\ kind e = TypeError)
  /\ (forall r, checkOptions this options = Return r ->
       r = valid
       \/ (ok r = false /\ exists msg, reason r = VString msg /\ In msg reasons))
  /\ (options <> VNull ->
      (forall props size,
         options = VObject props -> lookup "size" props = Some size ->
         ToNumber size <> None) ->
      exists r, checkOptions this options = Return r).
Proof.
  pose proof (checkOptions_cases this options) as C.
  split; [|split].
  - eexists. split; reflexivity.
  - intros r H. now rewrite H in C.
  - intros Hnull Hsize.
    destruct (checkOptions this options) as [r|e|].
    + now exists r.
    + destruct C as [C _]. contradiction.
    + destruct C as (props & size & E & Hs & Hn).
      exfalso. exact (Hsize props size E Hs Hn).
Qed.

Lemma checkOptions_outcome_witness :
  exists r,
    checkOptions default
      (VObject [("size"%string, VBool true); ("numbers"%string, VNumber 1%float)])
    = Return r.
Proof.
  apply (proj2 (proj2 (checkOptions_outcome default
           (VObject [("size"%string, VBool true);
                     ("numbers"%string, VNumber 1%float)])))).
  - discriminate.
  - intros props size E Hs. injection E as <-.
    injection Hs as <-. discriminate.
Defined.

Lemma maximum_not_nan (argument : value) (this : PasswordToolKit) :
  constructor argument = Return this -> PrimFloat.is_nan (maximum this) = false.
Proof.
  intros H. apply constructor_instance in H.
  destruct H as (_ & _ & _ & _ & H). simpl in H.
  apply negb_true_iff, orb_false_iff in H. tauto.
Qed.

(** X12.  The size checks on an instance built by the constructor, for a
    size that is a number other than NaN: [checkOptions] returns a result;
    a size that is not at least 1 gets the first size reason, a size that
    is at least 1 and not at most the maximum gets the second one, and a
    request is accepted only if [1 <= size <= maximum].  The flags are
    looked at only for the sizes in that range. *)
Theorem checkOptions_size_range (argument : value) (this : PasswordToolKit)
    (props : list (string * value)) (x : float) :
  constructor argument = Return this ->
  lookup "size" props = Some (VNumber x) ->
  PrimFloat.is_nan x = false ->
  exists check,
    checkOptions this (VObject props) = Return check
    /\ (PrimFloat.leb 1 x = false -> check = too_small)
    /\ (PrimFloat.leb 1 x = true -> PrimFloat.leb x (maximum this) = false ->
        check = too_large)
    /\ (ok check = true ->
        PrimFloat.leb 1 x = true /\ PrimFloat.leb x (maximum this) = true).
Proof.
  intros Hthis Hs Hx. pose proof (@maximum_not_nan argument this Hthis) as Hm.
  assert (H1 : PrimFloat.is_nan 1 = false) by reflexivity.
  rewrite checkOptions_object, Hs. cbn [ToNumber].
  destruct (PrimFloat.ltb x 1) eqn:E1.
  { exists too_small. split; [reflexivity|]. split; [reflexivity|].
    split; [|discriminate].
    intros L. apply leb_not_ltb in L. congruence. }
  pose proof (@not_ltb_leb x 1 Hx H1 E1) as L1.
  destruct (PrimFloat.ltb (maximum this) x) eqn:E2.
  { exists too_large. split; [reflexivity|].
    split; [congruence|]. split; [reflexivity|discriminate]. }
  pose proof (@not_ltb_leb (maximum this) x Hm Hx E2) as L2.
  unfold invalid, no_option, valid.
  repeat match goal with
         | |- context [if ?b then _ else _] => destruct b
         end;
    eexists; (split; [reflexivity|]);
    (split; [congruence|]); (split; [congruence|]); tauto.
Qed.

Lemma checkOptions_size_range_witness :
  exists check,
    checkOptions default (request (VNumber 31%float) true false false false)
    = Return check
    /\ (PrimFloat.leb 1 31 = false -> check = too_small)
    /\ (PrimFloat.leb 1 31 = true -> PrimFloat.leb 31 (maximum default) = false ->
        check = too_large)
    /\ (ok check = true ->
        PrimFloat.leb 1 31 = true /\ PrimFloat.leb 31 (maximum default) = true).
Proof.
  apply (@checkOptions_size_range VUndefined default
           [("size"%string, VNumber 31%float); ("numbers"%string, VBool true);
            ("symbols"%string, VBool false); ("uppercases"%string, VBool false);
            ("lowercases"%string, VBool false)] 31%float).
  - reflexivity.
  - reflexivity.
  - reflexivity.
Defined.

End CheckOptionsProperties.

(* ================================================================== *)
(** ** Properties of [generate] *)

Module GenerateProperties.
Import RegExp Constants Functions Toolkit Statements RegExpFacts NumberFacts CheckOptionsFacts GenerateFacts EvaluateProperties.
(** The pool of an accepted request: the alphabets whose flags are [true],
    in the order numbers, symbols, uppercases, lowercases.  It is not
    empty. *)
Lemma accepted_pool (this : PasswordToolKit) (props : list (string * value)) :
  checkOptions this (VObject props) = Return valid ->
  flat_map (fun kv => snd kv) (getSelectedChars (VObject props))
  = selected_alphabets props
  /\ 0 < length (selected_alphabets props).
Proof.
  intros Hvalid.
  pose proof (proj1 (checkOptions_valid_iff this (VObject props)) Hvalid)
    as (props' & size & x' & E & _ & _ & _ & _ & F1 & F2 & F3 & F4 & Hset).
  injection E as <-. split.
  - rewrite getSelectedChars_object. unfold selected_alphabets.
    now rewrite !flag_set_true by assumption.
  - rewrite !flag_set_true in Hset by assumption.
    unfold selected_alphabets. rewrite !length_app.
    destruct (flag_true props "numbers"); [simpl; lia|].
    destruct (flag_true props "symbols"); [simpl; lia|].
    destruct (flag_true props "uppercases"); [simpl; lia|].
    destruct (flag_true props "lowercases"); [simpl; lia|].
    discriminate Hset.
Qed.

(** The password of an accepted request, code unit by code unit: the one
    at index [i] is the code unit of the pool at the index drawn for [i]. *)
Lemma generate_accepted (this : PasswordToolKit) (props : list (string * value))
    (size : value) (array : list value) (random : nat -> random_number) :
  checkOptions this (VObject props) = Return valid ->
  lookup "size" props = Some size ->
  Array_ size = Return array ->
  (forall i, in_unit_interval (random i) = true) ->
  generate this (VObject props) random
  = Return (VString
      (map (fun i =>
              nth (getRandomNumber (length (selected_alphabets props)) (random i))
                  (selected_alphabets props) 0%N)
           (seq 0 (length array)))).
Proof.
  intros Hvalid Hsize Harray Hrandom.
  destruct (@accepted_pool this props Hvalid) as [Hpool Hpos].
  unfold generate. rewrite Hvalid. cbn [bind ok valid negb].
  unfold Get. rewrite Hsize, Harray. cbn [bind].
  unfold fill. rewrite length_map, charsToArray_split, Hpool.
  unfold split at 2. rewrite length_map.
  f_equal. f_equal.
  apply (join_split _
           (fun i => getRandomNumber (length (selected_alphabets props)) (random i))).
  intros i. apply floor_mul_lt; [apply Hrandom|exact Hpos].
Qed.

Lemma generated_in_pool (pool : js_string) (random : nat -> random_number)
    (n : nat) :
  0 < length pool ->
  (forall i, in_unit_interval (random i) = true) ->
  Forall (fun c => In c pool)
    (map (fun i => nth (getRandomNumber (length pool) (random i)) pool 0%N)
         (seq 0 n)).
Proof.
  intros Hpos Hrandom. apply Forall_forall. intros c Hc.
  apply in_map_iff in Hc. destruct Hc as (i & <- & _).
  apply nth_In. apply floor_mul_lt; [apply Hrandom|exact Hpos].
Qed.

(** X13.  What [generate] does with a request that [checkOptions] accepts,
    by the value of [size], for every outcome of the draws in [0, 1).  A
    number that is an array length (an integer from 0 to 2^32 - 1; here at
    least 1) gives a string of that length; any other number (a fraction,
    NaN, an integer from 2^32 on) makes [Array] throw a RangeError; and a
    size that is not a number ([undefined] and [true] are accepted by the
    comparisons) gives a string of one code unit, [Array] making it the
    only element.  Every code unit of a returned string belongs to an
    alphabet whose flag is [true]. *)
Theorem generate_on_accepted_request (this : PasswordToolKit)
    (props : list (string * value)) (size : value)
    (random : nat -> random_number) :
  checkOptions this (VObject props) = Return valid ->
  lookup "size" props = Some size ->
  (forall i, in_unit_interval (random i) = true) ->
  match size with
  | VNumber x =>
      match uint32_of x with
      | Some n =>
          exists password,
            generate this (VObject props) random = Return (VString password)
            /\ length password = N.to_nat n
            /\ Forall (fun c => In c (selected_alphabets props)) password
      | None =>
          generate this (VObject props) random
          = Throw {| kind := RangeError; message := str "Invalid array length" |}
      end
  | _ =>
      exists password,
        generate this (VObject props) random = Return (VString password)
        /\ length password = 1
        /\ Forall (fun c => In c (selected_alphabets props)) password
  end.
Proof.
  intros Hvalid Hsize Hrandom.
  destruct (@accepted_pool this props Hvalid) as [_ Hpos].
  assert (G : forall array, Array_ size = Return array ->
            exists password,
              generate this (VObject props) random = Return (VString password)
              /\ length password = length array
              /\ Forall (fun c => In c (selected_alphabets props)) password).
  { intros array Harray.
    rewrite (@generate_accepted this props size array random Hvalid Hsize Harray Hrandom).
    eexists. split; [reflexivity|]. split.
    - now rewrite length_map, length_seq.
    - now apply generated_in_pool. }
  destruct size as [| |b|x|s|elems|props'];
    try (match goal with
         | G : forall array, Array_ ?v = _ -> _ |- exists password, _ =>
             exact (G [v] eq_refl)
         end).
  destruct (uint32_of x) as [n|] eqn:Hn.
  - destruct (G (repeat VUndefined (N.to_nat n))) as (password & H1 & H2 & H3).
    + unfold Array_. now rewrite Hn.
    + exists password. now rewrite H2, repeat_length in *.
  - unfold generate. rewrite Hvalid. cbn [bind ok valid negb].
    unfold Get. rewrite Hsize. unfold Array_. now rewrite Hn.
Qed.

Lemma generate_on_accepted_request_witness :
  exists password,
    generate default
      (VObject [("size"%string, VUndefined); ("lowercases"%string, VBool true)])
      (fun _ => {| numerator := 1; denominator := 2 |})
    = Return (VString password)
    /\ length password = 1
    /\ Forall (fun c => In c (selected_alphabets
                 [("size"%string, VUndefined); ("lowercases"%string, VBool true)]))
         password.
Proof.
  apply (@generate_on_accepted_request default
           [("size"%string, VUndefined); ("lowercases"%string, VBool true)]
           VUndefined (fun _ => {| numerator := 1; denominator := 2 |})).
  - reflexivity.
  - reflexivity.
  - intros i. reflexivity.
Defined.

Lemma index_of_spec (c : code_unit) (pool : js_string) :
  In c pool -> index_of c pool < length pool /\ nth (index_of c pool) pool 0%N = c.
Proof.
  induction pool as [|d pool IH]; simpl; [tauto|].
  intros H. destruct (N.eqb_spec d c) as [->|Hne].
  - split; [lia|reflexivity].
  - destruct H as [H|H]; [congruence|].
    destruct (IH H). split; [lia|assumption].
Qed.

Lemma Forall_In_existsb (pool s : js_string) :
  forallb (fun c => existsb (N.eqb c) pool) s = true ->
  Forall (fun c => In c pool) s.
Proof.
  intros H. rewrite forallb_forall in H. apply Forall_forall.
  intros c Hc. apply H in Hc. apply existsb_exists in Hc.
  destruct Hc as (d & Hd & E). apply N.eqb_eq in E. now subst.
Qed.

Lemma map_nth_seq (t : js_string) :
  map (fun i => nth i t 0%N) (seq 0 (length t)) = t.
Proof.
  apply nth_ext with (d := 0%N) (d' := 0%N).
  - now rewrite length_map, length_seq.
  - intros i Hi. rewrite length_map, length_seq in Hi.
    rewrite (nth_indep _ 0%N (nth 0 t 0%N)) by now rewrite length_map, length_seq.
    rewrite (map_nth (fun i => nth i t 0%N)).
    now rewrite seq_nth.
Qed.

(** X14.  Every string over the selected alphabets can be generated: for a
    request that [checkOptions] accepts with a size that is an array
    length, each string of that length whose code units belong to the
    alphabets whose flags are [true] is the result of [generate] for some
    outcomes of [Math.random] in [0, 1). *)
Theorem generate_reaches_every_string (this : PasswordToolKit)
    (props : list (string * value)) (x : float) (n : N) (target : js_string) :
  checkOptions this (VObject props) = Return valid ->
  lookup "size" props = Some (VNumber x) ->
  uint32_of x = Some n ->
  length target = N.to_nat n ->
  Forall (fun c => In c (selected_alphabets props)) target ->
  exists random,
    (forall i, in_unit_interval (random i) = true)
    /\ generate this (VObject props) random = Return (VString target).
Proof.
  intros Hvalid Hsize Hn Hlen Hin.
  destruct (@accepted_pool this props Hvalid) as [_ Hpos].
  set (pool := selected_alphabets props) in *.
  set (random := fun i =>
         {| numerator := if (i <? length target)%nat
                         then index_of (nth i target 0%N) pool else 0;
            denominator := length pool |}).
  assert (Hrandom : forall i, in_unit_interval (random i) = true).
  { intros i. unfold in_unit_interval, random. simpl.
    apply Nat.ltb_lt.
    destruct (Nat.ltb_spec i (length target)) as [Hi|Hi]; [|exact Hpos].
    apply index_of_spec. rewrite Forall_forall in Hin. apply Hin.
    now apply nth_In. }
  exists random. split; [exact Hrandom|].
  rewrite (@generate_accepted this props (VNumber x)
             (repeat VUndefined (N.to_nat n)) random Hvalid Hsize)
    by (try assumption; unfold Array_; now rewrite Hn).
  rewrite repeat_length, <- Hlen. fold pool.
  f_equal. f_equal.
  rewrite <- (map_nth_seq target) at 2.
  apply map_ext_in. intros i Hi. apply in_seq in Hi.
  unfold getRandomNumber, floor_mul, random. simpl.
  destruct (Nat.ltb_spec i (length target)) as [_|Hge]; [|lia].
  rewrite Nat.div_mul by lia.
  apply index_of_spec. rewrite Forall_forall in Hin. apply Hin.
  apply nth_In. lia.
Qed.

Lemma generate_reaches_every_string_witness :
  exists random,
    (forall i, in_unit_interval (random i) = true)
    /\ generate default (request (VNumber 8%float) true true true true) random
       = Return (VString (str "Ab3$Ef7!")).
Proof.
  apply (@generate_reaches_every_string default
           [("size"%string, VNumber 8%float); ("numbers"%string, VBool true);
            ("symbols"%string, VBool true); ("uppercases"%string, VBool true);
            ("lowercases"%string, VBool true)] 8%float 8%N (str "Ab3$Ef7!")).
  - reflexivity.
  - reflexivity.
  - reflexivity.
  - reflexivity.
  - apply Forall_In_existsb. reflexivity.
Defined.

(** A class that holds every alphabet whose flag is [true] holds the
    pool. *)
Lemma pool_forallb (P : code_unit -> bool) (props : list (string * value)) :
  (flag_true props "numbers" = true -> forallb P numbers = true) ->
  (flag_true props "symbols" = true -> forallb P symbols = true) ->
  (flag_true props "uppercases" = true -> forallb P uppercases = true) ->
  (flag_true props "lowercases" = true -> forallb P lowercases = true) ->
  forallb P (selected_alphabets props) = true.
Proof.
  intros Hn Hs Hu Hl. unfold selected_alphabets.
  rewrite !forallb_app.
  destruct (flag_true props "numbers"), (flag_true props "symbols"),
           (flag_true props "uppercases"), (flag_true props "lowercases");
    rewrite ?Hn, ?Hs, ?Hu, ?Hl by reflexivity; reflexivity.
Qed.

Lemma forallb_from_pool (P : code_unit -> bool) (pool password : js_string) :
  forallb P pool = true -> Forall (fun c => In c pool) password ->
  forallb P password = true.
Proof.
  intros HP Hin. rewrite forallb_forall in *. rewrite Forall_forall in Hin.
  intros c Hc. apply HP, Hin, Hc.
Qed.

Lemma existsb_negb (P : code_unit -> bool) (s : js_string) :
  forallb (fun c => negb (P c)) s = true -> existsb P s = false.
Proof.
  induction s as [|c s IH]; simpl; [reflexivity|].
  intros H. apply andb_true_iff in H. destruct H as [H1 H2].
  apply negb_true_iff in H1. now rewrite H1, IH.
Qed.

(** X15.  What [evaluate] says of a password that [generate] returns, on
    any two instances and for every outcome of the draws.  A password
    shorter than 8 has level 0; one made without the lowercase or without
    the uppercase alphabet has level 1 at most, without the digits level 2
    at most, and without the symbols level 3 at most: the alphabets of
    [functions.js] fall in the classes that the expressions of
    [constants.js] test, and in no other. *)
Theorem generate_then_evaluate (this that : PasswordToolKit)
    (props : list (string * value)) (x : float) (n : N)
    (random : nat -> random_number) :
  checkOptions this (VObject props) = Return valid ->
  lookup "size" props = Some (VNumber x) ->
  uint32_of x = Some n ->
  (forall i, in_unit_interval (random i) = true) ->
  exists password e,
    generate this (VObject props) random = Return (VString password)
    /\ evaluate that (VString password) = Return e
    /\ (N.to_nat n < 8 -> level e = 0)
    /\ (flag_true props "lowercases" = false \/ flag_true props "uppercases" = false ->
        level e <= 1)
    /\ (flag_true props "numbers" = false -> level e <= 2)
    /\ (flag_true props "symbols" = false -> level e <= 3).
Proof.
  intros Hvalid Hsize Hn Hrandom.
  destruct (@accepted_pool this props Hvalid) as [_ Hpos].
  assert (Harray : Array_ (VNumber x) = Return (repeat VUndefined (N.to_nat n)))
    by (unfold Array_; now rewrite Hn).
  rewrite (@generate_accepted this props (VNumber x) _ random
             Hvalid Hsize Harray Hrandom).
  rewrite repeat_length.
  pose proof (@generated_in_pool (selected_alphabets props) random (N.to_nat n)
                Hpos Hrandom) as Hin.
  set (password := map _ (seq 0 (N.to_nat n))) in *.
  assert (Hlen : length password = N.to_nat n)
    by (unfold password; now rewrite length_map, length_seq).
  destruct (evaluate_level that password) as (e & He & L).
  exists password, e. split; [reflexivity|]. split; [exact He|].
  rewrite L, Hlen. clear L He.
  assert (Hclass : forall Q : code_unit -> bool,
            forallb (fun c => negb (Q c)) (selected_alphabets props) = true ->
            existsb Q password = false).
  { intros Q HQ. apply existsb_negb.
    now apply forallb_from_pool with (selected_alphabets props). }
  split; [|split; [|split]].
  - intros Hshort. apply Nat.ltb_lt in Hshort. now rewrite Hshort.
  - intros Hflag.
    assert (E : existsb lower password = false \/ existsb upper password = false).
    { destruct Hflag as [Hflag|Hflag]; [left|right].
      - apply (Hclass lower).
        apply pool_forallb; intros; try reflexivity; congruence.
      - apply (Hclass upper).
        apply pool_forallb; intros; try reflexivity; congruence. }
    destruct (N.to_nat n <? 8)%nat; [lia|].
    destruct E as [-> | ->]; simpl; [lia|].
    rewrite orb_true_r. lia.
  - intros Hflag.
    assert (E : existsb digit password = false).
    { apply (Hclass digit).
      apply pool_forallb; intros; try reflexivity; congruence. }
    rewrite E.
    destruct (N.to_nat n <? 8)%nat; [lia|].
    destruct (negb (existsb lower password) || negb (existsb upper password));
      simpl; lia.
  - intros Hflag.
    assert (E : forallb alnum password = true).
    { apply forallb_from_pool with (selected_alphabets props); [|exact Hin].
      apply pool_forallb; intros; try reflexivity; congruence. }
    rewrite E.
    destruct (N.to_nat n <? 8)%nat; [lia|].
    destruct (negb (existsb lower password) || negb (existsb upper password));
      [lia|].
    destruct (negb (existsb digit password)); lia.
Qed.

Lemma generate_then_evaluate_witness :
  let props :=
    [("size"%string, VNumber 12%float); ("numbers"%string, VBool true);
     ("uppercases"%string, VBool true); ("lowercases"%string, VBool true)] in
  let random i := {| numerator := Nat.modulo (5 * i + 3) 11; denominator := 11 |} in
  exists password e,
    generate default (VObject props) random = Return (VString password)
    /\ evaluate default (VString password) = Return e
    /\ (N.to_nat 12 < 8 -> level e = 0)
    /\ (flag_true props "lowercases" = false \/ flag_true props "uppercases" = false ->
        level e <= 1)
    /\ (flag_true props "numbers" = false -> level e <= 2)
    /\ (flag_true props "symbols" = false -> level e <= 3).
Proof.
  apply (@generate_then_evaluate default default
           [("size"%string, VNumber 12%float); ("numbers"%string, VBool true);
            ("uppercases"%string, VBool true); ("lowercases"%string, VBool true)]
           12%float 12%N
           (fun i => {| numerator := Nat.modulo (5 * i + 3) 11; denominator := 11 |})).
  - reflexivity.
  - reflexivity.
  - reflexivity.
  - intros i. unfold in_unit_interval. cbn [numerator denominator].
    apply Nat.ltb_lt. apply Nat.mod_upper_bound. lia.
Defined.

(** X16.  A generated password that is longer than its pool repeats a
    character: when the requested size exceeds the number of characters of
    the selected alphabets (10 digits, 32 symbols, 26 and 26 letters),
    [regexps.repeated] matches the password, whatever the draws, and
    [evaluate] gives it level 4 at most. *)
Theorem generate_longer_than_pool (this that : PasswordToolKit)
    (props : list (string * value)) (x : float) (n : N)
    (random : nat -> random_number) :
  checkOptions this (VObject props) = Return valid ->
  lookup "size" props = Some (VNumber x) ->
  uint32_of x = Some n ->
  (forall i, in_unit_interval (random i) = true) ->
  length (selected_alphabets props) < N.to_nat n ->
  exists password e,
    generate this (VObject props) random = Return (VString password)
    /\ test regexps.repeated password = true
    /\ evaluate that (VString password) = Return e
    /\ level e <= 4.
Proof.
  intros Hvalid Hsize Hn Hrandom Hlong.
  destruct (@accepted_pool this props Hvalid) as [_ Hpos].
  assert (Harray : Array_ (VNumber x) = Return (repeat VUndefined (N.to_nat n)))
    by (unfold Array_; now rewrite Hn).
  rewrite (@generate_accepted this props (VNumber x) _ random
             Hvalid Hsize Harray Hrandom).
  rewrite repeat_length.
  pose proof (@generated_in_pool (selected_alphabets props) random (N.to_nat n)
                Hpos Hrandom) as Hin.
  set (password := map _ (seq 0 (N.to_nat n))) in *.
  assert (Hlen : length password = N.to_nat n)
    by (unfold password; now rewrite length_map, length_seq).
  assert (Hdot : forallb dot password = true).
  { apply forallb_from_pool with (selected_alphabets props); [|exact Hin].
    apply pool_forallb; intros; reflexivity. }
  assert (Hrep : test regexps.repeated password = true).
  { apply (test_repeated_NoDup password Hdot). intros Hnodup.
    assert (length password <= length (selected_alphabets props)); [|lia].
    apply NoDup_incl_length; [exact Hnodup|].
    intros c Hc. rewrite Forall_forall in Hin. now apply Hin. }
  destruct (evaluate_level that password) as (e & He & L).
  exists password, e. split; [reflexivity|]. split; [exact Hrep|].
  split; [exact He|]. rewrite L, Hrep.
  repeat match goal with
         | |- context [if ?b then _ else _] => destruct b
         end; lia.
Qed.

Lemma generate_longer_than_pool_witness :
  let props := [("size"%string, VNumber 11%float); ("numbers"%string, VBool true)] in
  let random i := {| numerator := Nat.modulo (5 * i + 3) 11; denominator := 11 |} in
  exists password e,
    generate default (VObject props) random = Return (VString password)
    /\ test regexps.repeated password = true
    /\ evaluate default (VString password) = Return e
    /\ level e <= 4.
Proof.
  apply (@generate_longer_than_pool default default
           [("size"%string, VNumber 11%float); ("numbers"%string, VBool true)]
           11%float 11%N
           (fun i => {| numerator := Nat.modulo (5 * i + 3) 11; denominator := 11 |})).
  - reflexivity.
  - reflexivity.
  - reflexivity.
  - intros i. unfold in_unit_interval. cbn [numerator denominator].
    apply Nat.ltb_lt. apply Nat.mod_upper_bound. lia.
  - simpl. lia.
Defined.

(** X17.  [checkOptions] and [generate] read five properties of a request
    and nothing else: two objects that agree on [size] and on the four
    flags get the same validation and, for the same draws, the same
    password, whatever other properties they hold and in whatever order. *)
Theorem generate_reads_five_properties (this : PasswordToolKit)
    (props props' : list (string * value)) (random : nat -> random_number) :
  (forall name, In name request_properties -> lookup name props = lookup name props') ->
  checkOptions this (VObject props) = checkOptions this (VObject props')
  /\ generate this (VObject props) random = generate this (VObject props') random.
Proof.
  intros H.
  assert (Hsize : lookup "size" props = lookup "size" props')
    by (apply H; simpl; tauto).
  assert (Hn : lookup "numbers" props = lookup "numbers" props')
    by (apply H; simpl; tauto).
  assert (Hs : lookup "symbols" props = lookup "symbols" props')
    by (apply H; simpl; tauto).
  assert (Hu : lookup "uppercases" props = lookup "uppercases" props')
    by (apply H; simpl; tauto).
  assert (Hl : lookup "lowercases" props = lookup "lowercases" props')
    by (apply H; simpl; tauto).
  assert (C : checkOptions this (VObject props) = checkOptions this (VObject props')).
  { rewrite !checkOptions_object. unfold flag_untyped, flag_set.
    now rewrite Hsize, Hn, Hs, Hu, Hl. }
  split; [exact C|].
  unfold generate. rewrite C. unfold getSelectedChars, Get.
  now rewrite Hsize, Hn, Hs, Hu, Hl.
Qed.

Lemma generate_reads_five_properties_witness :
  let random i := {| numerator := Nat.modulo (5 * i + 3) 11; denominator := 11 |} in
  checkOptions default
    (VObject [("length"%string, VNumber 3%float); ("symbols"%string, VBool true);
              ("size"%string, VNumber 9%float)])
  = checkOptions default
      (VObject [("size"%string, VNumber 9%float); ("symbols"%string, VBool true)])
  /\ generate default
       (VObject [("length"%string, VNumber 3%float); ("symbols"%string, VBool true);
                 ("size"%string, VNumber 9%float)]) random
     = generate default
         (VObject [("size"%string, VNumber 9%float); ("symbols"%string, VBool true)])
         random.
Proof.
  apply (@generate_reads_five_properties default
           [("length"%string, VNumber 3%float); ("symbols"%string, VBool true);
            ("size"%string, VNumber 9%float)]
           [("size"%string, VNumber 9%float); ("symbols"%string, VBool true)]).
  intros name Hin. simpl in Hin.
  destruct Hin as [<-|[<-|[<-|[<-|[<-|[]]]]]]; reflexivity.
Defined.

End GenerateProperties.

(* ================================================================== *)
(** ** The alphabets and the pool of [src/functions.js] *)

Module FunctionsProperties.
Import RegExp Constants Functions Toolkit Statements RegExpFacts GenerateFacts.
(** Membership in a string of code units up to [bound], decided class by
    class on the code units from 0 to [bound]. *)
Lemma In_class (pool : js_string) (P : code_unit -> bool) (bound : nat) :
  forallb (fun k => Bool.eqb (existsb (N.eqb (N.of_nat k)) pool) (P (N.of_nat k)))
          (seq 0 (S bound)) = true ->
  forallb (fun c => (c <=? N.of_nat bound)%N) pool = true ->
  (forall c, P c = true -> (c <= N.of_nat bound)%N) ->
  forall c, In c pool <-> P c = true.
Proof.
  intros Htable Hpool HP c.
  rewrite forallb_forall in Htable, Hpool.
  assert (Hin : In c pool <-> existsb (N.eqb c) pool = true).
  { rewrite existsb_exists. split.
    - intros H. exists c. split; [exact H|apply N.eqb_refl].
    - intros (d & H & E). apply N.eqb_eq in E. now subst. }
  destruct (N.le_gt_cases c (N.of_nat bound)) as [Hle|Hgt].
  - specialize (Htable (N.to_nat c)).
    rewrite N2Nat.id in Htable.
    rewrite Hin. rewrite <- (eqb_prop _ _ (Htable ltac:(apply in_seq; lia))).
    reflexivity.
  - split.
    + intros H. apply Hpool in H. apply N.leb_le in H. lia.
    + intros H. apply HP in H. lia.
Qed.

Lemma distinct_NoDup (s : js_string) : distinct s = true -> NoDup s.
Proof.
  induction s as [|c s IH]; simpl; intros H; constructor.
  - apply andb_true_iff in H. destruct H as [H _].
    apply negb_true_iff in H. intros Hin.
    assert (E : existsb (N.eqb c) s = true)
      by (apply existsb_exists; exists c; split; [exact Hin|apply N.eqb_refl]).
    congruence.
  - apply IH. apply andb_true_iff in H. tauto.
Qed.

(** X18.  The alphabets of [functions.js] and the classes of
    [constants.js] agree: a code unit is in [numbers] exactly when [\d]
    accepts it, in [lowercases] when [[a-z]] does, in [uppercases] when
    [[A-Z]] does, and in [symbols] exactly when it is a printable ASCII
    character (33 to 126) that [[\W_]] accepts.  Together the four
    alphabets are the 94 printable ASCII characters other than the space,
    each once. *)
Theorem alphabets_are_the_classes :
  (forall c, In c numbers <-> digit c = true)
  /\ (forall c, In c lowercases <-> lower c = true)
  /\ (forall c, In c uppercases <-> upper c = true)
  /\ (forall c, In c symbols <->
                (33 <= c <= 126)%N /\ non_word_or_underscore c = true)
  /\ (forall c, In c (numbers ++ symbols ++ uppercases ++ lowercases) <->
                (33 <= c <= 126)%N)
  /\ NoDup (numbers ++ symbols ++ uppercases ++ lowercases).
Proof.
  assert (B : forall lo hi c, between lo hi c = true -> (hi <= 126)%N ->
                              (c <= N.of_nat 126)%N).
  { intros lo hi c H Hhi. apply between_spec in H. lia. }
  split; [|split; [|split; [|split; [|split]]]].
  - apply (In_class numbers digit 126); try reflexivity.
    intros d H. now apply (B 48%N 57%N).
  - apply (In_class lowercases lower 126); try reflexivity.
    intros d H. now apply (B 97%N 122%N).
  - apply (In_class uppercases upper 126); try reflexivity.
    intros d H. now apply (B 65%N 90%N).
  - intros c. rewrite <- between_spec, <- andb_true_iff.
    apply (In_class symbols
             (fun c => between 33 126 c && non_word_or_underscore c) 126);
      try reflexivity.
    intros d Hd. apply andb_true_iff in Hd. now apply (B 33%N 126%N).
  - intros c. rewrite <- between_spec.
    apply (In_class (numbers ++ symbols ++ uppercases ++ lowercases)
             (between 33 126) 126); try reflexivity.
    intros d Hd. now apply (B 33%N 126%N).
  - apply distinct_NoDup. reflexivity.
Qed.

Lemma In_split (pool : js_string) (c : code_unit) :
  In [c] (split pool) <-> In c pool.
Proof.
  unfold split. rewrite in_map_iff. split.
  - intros (d & E & H). now injection E as <-.
  - intros H. now exists c.
Qed.

Lemma NoDup_split (pool : js_string) : NoDup pool -> NoDup (split pool).
Proof.
  induction 1 as [|c pool Hc Hpool IH]; simpl; constructor.
  - now rewrite In_split.
  - exact IH.
Qed.

(** X19.  The pool that [generate] draws from, for any request object:
    the characters of the alphabets whose flags are truthy, each as a
    string of one code unit and each exactly once, so that a uniform draw
    of an index is a uniform draw of a character; the pool has 10, 32, 26
    and 26 entries for the digits, the symbols and the two cases of
    letters. *)
Theorem pool_of_request (props : list (string * value)) :
  let chars := charsToArray (getSelectedChars (VObject props)) in
  let selected name := ToBoolean (Get (VObject props) name) in
  NoDup chars
  /\ Forall (fun s => length s = 1) chars
  /\ length chars = (if selected "numbers"%string then 10 else 0)
                    + (if selected "symbols"%string then 32 else 0)
                    + (if selected "uppercases"%string then 26 else 0)
                    + (if selected "lowercases"%string then 26 else 0)
  /\ (forall c, In [c] chars <->
                selected "numbers"%string = true /\ In c numbers
                \/ selected "symbols"%string = true /\ In c symbols
                \/ selected "uppercases"%string = true /\ In c uppercases
                \/ selected "lowercases"%string = true /\ In c lowercases).
Proof.
  cbv zeta. rewrite charsToArray_split. unfold getSelectedChars.
  generalize (VObject props). intros options.
  split; [|split; [|split]].
  - apply NoDup_split. apply distinct_NoDup.
    destruct (ToBoolean (Get options "numbers")),
             (ToBoolean (Get options "symbols")),
             (ToBoolean (Get options "uppercases")),
             (ToBoolean (Get options "lowercases")); reflexivity.
  - apply Forall_forall. intros s Hs. unfold split in Hs.
    apply in_map_iff in Hs. destruct Hs as (c & <- & _). reflexivity.
  - unfold split. rewrite length_map.
    destruct (ToBoolean (Get options "numbers")),
             (ToBoolean (Get options "symbols")),
             (ToBoolean (Get options "uppercases")),
             (ToBoolean (Get options "lowercases")); reflexivity.
  - intros c. rewrite In_split.
    destruct (ToBoolean (Get options "numbers")),
             (ToBoolean (Get options "symbols")),
             (ToBoolean (Get options "uppercases")),
             (ToBoolean (Get options "lowercases"));
      cbn [flat_map snd app]; rewrite ?app_nil_r, ?in_app_iff;
      cbn [In]; intuition (try discriminate; try contradiction).
Qed.

End FunctionsProperties.

(* ================================================================== *)
(** ** Properties of the instance and its shared arrays *)

Module SharedFacts.
Import RegExp Constants Statements RegExpFacts EvaluateFacts ConstructorFacts PatternProperties.

(** *** The definitions of [Toolkit] are those of [Shared] on a snapshot *)

Lemma at_index_reading (array : Shared.array_object) (index : nat) :
  Toolkit.at_index (Shared.reading array) index = Shared.at_index array index.
Proof.
  unfold Toolkit.at_index, Shared.at_index, Shared.reading.
  revert index. induction array as [|slot array IH]; intros [|index]; simpl;
    try reflexivity.
  apply IH.
Qed.

Lemma evaluation_snapshot (sigma : Shared.store) (this : Shared.PasswordToolKit)
    (lvl q s : nat) :
  Shared.evaluation sigma this lvl q s
  = Toolkit.evaluation (Shared.snapshot sigma this) lvl q s.
Proof.
  unfold Shared.evaluation, Toolkit.evaluation, Shared.snapshot. simpl.
  now rewrite !at_index_reading.
Qed.

(** [evaluate] in a store is [evaluate] on the snapshot of the instance in
    that store. *)
Lemma evaluate_snapshot (sigma : Shared.store) (this : Shared.PasswordToolKit)
    (password : value) :
  Shared.evaluate sigma this password
  = Toolkit.evaluate (Shared.snapshot sigma this) password.
Proof.
  destruct password as [| | | |s| |]; try reflexivity.
  unfold Shared.evaluate, Toolkit.evaluate, Toolkit.evaluate_with.
  now rewrite !evaluation_snapshot.
Qed.

Lemma everyString_dense (elems : list value) :
  Shared.everyString (map Some elems) = Functions.everyString elems.
Proof.
  unfold Shared.everyString, Functions.everyString.
  induction elems as [|v elems IH]; simpl; [reflexivity|now rewrite IH].
Qed.

Lemma reading_dense (elems : list value) :
  Shared.reading (map Some elems) = elems.
Proof.
  unfold Shared.reading. rewrite map_map. apply map_id.
Qed.

Lemma has_and_not_value (v : value) (name : string)
    (check : Shared.reference -> bool) (check' : value -> bool) :
  (forall w, check (Shared.RValue w) = check' w) ->
  Shared.has_and_not (Shared.RValue v) name check = Toolkit.has_and_not v name check'.
Proof.
  intros H. unfold Shared.has_and_not, Toolkit.has_and_not. simpl.
  destruct (Reflect_has v name) as [present| |]; simpl; [|reflexivity|reflexivity].
  now rewrite H.
Qed.

(** The constructor of [Toolkit] is the constructor of [Shared] on
    settings that hold their arrays themselves: the same error, or an
    instance whose snapshot, as long as the arrays of [src/defaults.js]
    are intact, is the instance of [Toolkit]. *)
Lemma constructor_value (sigma : Shared.store) (argument : value) :
  match Toolkit.constructor argument with
  | Return this' =>
      exists this,
        Shared.constructor sigma (Shared.RValue argument) = Return this
        /\ (Shared.defaults_intact sigma -> Shared.snapshot sigma this = this')
  | Throw e => Shared.constructor sigma (Shared.RValue argument) = Throw e
  | Unmodelled => Shared.constructor sigma (Shared.RValue argument) = Unmodelled
  end.
Proof.
  assert (Hobj : forall props,
            match Toolkit.constructor (VObject props) with
            | Return this' =>
                exists this,
                  Shared.constructor sigma (Shared.RValue (VObject props)) = Return this
                  /\ (Shared.defaults_intact sigma ->
                      Shared.snapshot sigma this = this')
            | Throw e =>
                Shared.constructor sigma (Shared.RValue (VObject props)) = Throw e
            | Unmodelled =>
                Shared.constructor sigma (Shared.RValue (VObject props)) = Unmodelled
            end).
  { intros props. unfold Shared.constructor. cbv zeta.
    change (negb (String.eqb (Shared.typeof (Shared.RValue (VObject props))) "object"))
      with false. cbv iota.
    rewrite (@has_and_not_value (VObject props) "suggestions" Shared.isArray isArray)
      by reflexivity.
    rewrite (@has_and_not_value (VObject props) "qualities" Shared.isArray isArray)
      by reflexivity.
    rewrite (@has_and_not_value (VObject props) "maximum"
               (fun r => String.eqb (Shared.typeof r) "number")
               (fun v => String.eqb (typeof v) "number")) by reflexivity.
    rewrite (@has_and_not_value (VObject props) "suggestions"
               (fun r => Shared.everyString (Shared.elements sigma r))
               (fun v => Functions.everyString (Toolkit.elements v)))
      by (intros [| | | | |elems|]; try reflexivity; apply everyString_dense).
    rewrite (@has_and_not_value (VObject props) "qualities"
               (fun r => Shared.everyString (Shared.elements sigma r))
               (fun v => Functions.everyString (Toolkit.elements v)))
      by (intros [| | | | |elems|]; try reflexivity; apply everyString_dense).
    rewrite (@has_and_not_value (VObject props) "suggestions"
               (fun r => Nat.eqb (length (Shared.elements sigma r)) 7)
               (fun v => Nat.eqb (length (Toolkit.elements v)) 7))
      by (intros [| | | | |elems|]; try reflexivity; simpl; now rewrite length_map).
    rewrite (@has_and_not_value (VObject props) "qualities"
               (fun r => Nat.eqb (length (Shared.elements sigma r)) 5)
               (fun v => Nat.eqb (length (Toolkit.elements v)) 5))
      by (intros [| | | | |elems|]; try reflexivity; simpl; now rewrite length_map).
    unfold Toolkit.constructor. cbv zeta.
    change (negb (String.eqb (typeof (VObject props)) "object")) with false.
    cbv iota.
    rewrite !has_and_not_object. cbn [Shared.Get]. unfold bind, Get. cbv beta.
    destruct (lookup "suggestions" props) as [[| | | | |sug|]|];
      destruct (lookup "qualities" props) as [[| | | | |qua|]|];
      destruct (lookup "maximum" props) as [[| | |mx| | |]|];
      cbn [isArray typeof negb String.eqb Ascii.eqb Bool.eqb Toolkit.elements];
      try reflexivity;
      repeat match goal with
             | |- match (if ?b then _ else _) with _ => _ end =>
                 destruct b; [reflexivity|]
             end;
      (eexists; split; [reflexivity|]);
      intros [Hs Hq]; unfold Shared.snapshot; simpl;
      rewrite ?Hs, ?Hq, ?reading_dense; reflexivity. }
  destruct argument as [| |b|x|s|elems|props]; try reflexivity.
  - apply (Hobj []).
  - exists {| Shared.suggestions := Shared.RArray Shared.suggestions_location;
              Shared.qualities := Shared.RArray Shared.qualities_location;
              Shared.maximum := 30%float |}.
    split; [reflexivity|].
    intros [Hs Hq]. unfold Shared.snapshot. simpl.
    now rewrite Hs, Hq, !reading_dense.
  - apply Hobj.
Qed.

(** *** The rows of [evaluate] *)


(** Every string is in a row, and [evaluate] returns that row, read in the
    store of the call. *)
Lemma evaluate_row (s : js_string) :
  exists row,
    In row rows /\ Shared.row_applies row s
    /\ forall sigma this,
         Shared.evaluate sigma this (VString s)
         = Return (Shared.read_row sigma this row).
Proof.
  assert (E : forall sigma this,
            Shared.evaluate sigma this (VString s)
            = Return
                (if (length s <? 8)%nat then Shared.evaluation sigma this 0 0 0
                 else if negb (existsb lower s) || negb (existsb upper s)
                 then Shared.evaluation sigma this 1 1 1
                 else if negb (existsb digit s) then Shared.evaluation sigma this 2 1 2
                 else if forallb alnum s then Shared.evaluation sigma this 3 2 3
                 else if test regexps.repeated s then Shared.evaluation sigma this 4 3 4
                 else if existsb (fun pattern => test pattern s) patterns
                 then Shared.evaluation sigma this 4 3 5
                 else Shared.evaluation sigma this 5 4 6)).
  { intros sigma this. rewrite evaluate_snapshot, evaluate_string.
    now rewrite !evaluation_snapshot. }
  pose proof (test_repeated_iff s) as R.
  pose proof (@existsb_common_patterns s) as P.
  destruct (length s <? 8)%nat eqn:L.
  { exists (0, 0, 0). split; [simpl; tauto|].
    split; [now apply Nat.ltb_lt|].
    intros sigma this. rewrite E, ?L. reflexivity. }
  assert (Hlen : 8 <= length s) by now apply Nat.ltb_ge.
  destruct (existsb lower s) eqn:Hl; [destruct (existsb upper s) eqn:Hu|].
  - destruct (existsb digit s) eqn:Hd.
    + destruct (forallb alnum s) eqn:Ha.
      * exists (3, 2, 3). split; [simpl; tauto|]. split; [simpl; tauto|].
        intros sigma this. rewrite E, ?L, ?Hl, ?Hu, ?Hd, ?Ha. reflexivity.
      * destruct (test regexps.repeated s) eqn:T.
        -- exists (4, 3, 4). split; [simpl; tauto|]. split; [simpl; tauto|].
           intros sigma this. rewrite E, ?L, ?Hl, ?Hu, ?Hd, ?Ha, ?T. reflexivity.
        -- assert (NR : ~ has_repeat s) by (intros H; apply R in H; discriminate).
           specialize (P NR).
           destruct (existsb (fun pattern => test pattern s) patterns) eqn:C.
           ++ exists (4, 3, 5). split; [simpl; tauto|]. split; [simpl; tauto|].
              intros sigma this. rewrite E, ?L, ?Hl, ?Hu, ?Hd, ?Ha, ?T, ?C. reflexivity.
           ++ exists (5, 4, 6). split; [simpl; tauto|].
              split.
              ** simpl. repeat split; try assumption.
                 intros H. apply P in H. discriminate.
              ** intros sigma this. rewrite E, ?L, ?Hl, ?Hu, ?Hd, ?Ha, ?T, ?C. reflexivity.
    + exists (2, 1, 2). split; [simpl; tauto|]. split; [simpl; tauto|].
      intros sigma this. rewrite E, ?L, ?Hl, ?Hu, ?Hd. reflexivity.
  - exists (1, 1, 1). split; [simpl; tauto|].
    split; [simpl; split; [exact Hlen|intros [? ?]; congruence]|].
    intros sigma this. rewrite E, ?L, ?Hl, ?Hu. reflexivity.
  - exists (1, 1, 1). split; [simpl; tauto|].
    split; [simpl; split; [exact Hlen|intros [? ?]; congruence]|].
    intros sigma this. rewrite E, ?L, ?Hl. reflexivity.
Qed.



(** The same happens when the caller empties the array, and an array
    that is made of holes passes the checks of the constructor: in both
    cases [evaluate] returns [undefined] for the suggestion. *)
Example evaluate_reads_holes :
  let sigma := Shared.initial ++ [repeat None 7] in
  exists this,
    Shared.constructor sigma
      (Shared.RObject [("suggestions"%string, Shared.RArray 2)]) = Return this
    /\ Shared.evaluate sigma this (VString (str "abc"))
       = Return {| Toolkit.level := 0;
                   Toolkit.quality := VString (str "insecure");
                   Toolkit.suggestion := VUndefined |}
    /\ Shared.evaluate (Shared.initial ++ [[]]) this (VString (str "abc"))
       = Return {| Toolkit.level := 0;
                   Toolkit.quality := VString (str "insecure");
                   Toolkit.suggestion := VUndefined |}.
Proof. cbv zeta. eexists. repeat split. Qed.

(** *** The constructor in a store *)

Lemma has_and_not_settings (props : list (string * Shared.reference))
    (name : string) (check : Shared.reference -> bool) :
  Shared.has_and_not (Shared.RObject props) name check =
  Return (match Shared.lookup name props with
          | Some r => negb (check r)
          | None => false
          end).
Proof.
  unfold Shared.has_and_not, Shared.Reflect_has, Shared.Get. simpl.
  destruct (Shared.lookup name props); reflexivity.
Qed.

Lemma dense_at_index (array : Shared.array_object) (index : nat) :
  Shared.dense array = true -> Shared.everyString array = true ->
  index < length array ->
  exists s, Shared.at_index array index = VString s /\ In (Some (VString s)) array.
Proof.
  unfold Shared.dense, Shared.everyString, Shared.at_index.
  rewrite !forallb_forall. intros Hdense Hall Hlt.
  destruct (nth_error array index) as [slot|] eqn:E.
  - pose proof (nth_error_In _ _ E) as Hin.
    specialize (Hdense _ Hin). specialize (Hall _ Hin).
    destruct slot as [[| | | |s| |]|]; try discriminate.
    now exists s.
  - apply nth_error_None in E. lia.
Qed.

Lemma isArray_truthy (r : Shared.reference) :
  Shared.isArray r = true -> Shared.ToBoolean r = true.
Proof.
  destruct r as [[| | | | |elems|]| |]; simpl; intros H;
    try discriminate H; reflexivity.
Qed.

(** X9.  The constructor on an object, outcome by outcome, for arrays held
    by reference and with their holes.  It returns an instance exactly
    when the settings that are present are typed (arrays whose elements,
    the holes apart, are strings; a number) and sized (arrays of length 7
    and 5), and the instance holds the references given and those of the
    default arrays for the others; it throws a TypeError as soon as one
    setting is ill typed, whatever the lengths, and a RangeError only when
    every setting is typed and an array has the wrong length. *)
Theorem constructor_outcome (sigma : Shared.store)
    (props : list (string * Shared.reference)) :
  match Shared.constructor sigma (Shared.RObject props) with
  | Return this =>
      Shared.settings_typed sigma props = true
      /\ Shared.settings_sized sigma props = true
      /\ this = Shared.instance_of props
  | Throw e =>
      if Shared.settings_typed sigma props
      then kind e = RangeError /\ Shared.settings_sized sigma props = false
      else kind e = TypeError
  | Unmodelled => False
  end.
Proof.
  unfold Shared.constructor. cbv zeta.
  change (negb (String.eqb (Shared.typeof (Shared.RObject props)) "object"))
    with false. cbv iota.
  rewrite !has_and_not_settings. unfold bind. cbv beta.
  unfold Shared.settings_typed, Shared.settings_sized, Shared.instance_of,
    Shared.absent_or, Shared.string_array, Shared.Get.
  destruct (Shared.lookup "suggestions" props) as [sug|];
    destruct (Shared.lookup "qualities" props) as [qua|];
    destruct (Shared.lookup "maximum" props) as [mx|];
    repeat match goal with
           | |- context [Shared.isArray ?r] =>
               let A := fresh "A" in destruct (Shared.isArray r) eqn:A
           | |- context [Shared.everyString ?l] => destruct (Shared.everyString l)
           | |- context [Nat.eqb ?a ?b] => destruct (Nat.eqb a b)
           | |- context [String.eqb (Shared.typeof ?r) "number"] =>
               let T := fresh "T" in
               destruct (String.eqb (Shared.typeof r) "number") eqn:T
           end;
    cbn [negb andb kind Toolkit.type_error Toolkit.range_error];
    try reflexivity; try (split; reflexivity).
  all: rewrite ?(@isArray_truthy _ A), ?(@isArray_truthy _ A0);
    (split; [reflexivity|split; [reflexivity|]]); f_equal;
    try (destruct mx as [[| | |x| | |]| |]; simpl; try reflexivity;
         destruct (PrimFloat.eqb x 0 || PrimFloat.is_nan x); reflexivity).
Qed.

(** A check of the constructor that passes: the setting is absent and
    reads as [undefined], or it is present and has the property. *)
Lemma has_and_not_passes (settings : Shared.reference) (name : string)
    (check : Shared.reference -> bool) :
  Shared.has_and_not settings name check = Return false ->
  Shared.Get settings name = Shared.RValue VUndefined
  \/ check (Shared.Get settings name) = true.
Proof.
  unfold Shared.has_and_not, Shared.Reflect_has, Shared.Get, Reflect_has, Get.
  destruct settings as [[| | | | |elems|props]|l|props]; simpl;
    try discriminate; try (intros _; left; reflexivity).
  - destruct (lookup name props) as [v|]; simpl.
    + intros H. injection H as H. apply negb_false_iff in H. now right.
    + intros _. now left.
  - destruct (Shared.lookup name props) as [r|]; simpl.
    + intros H. injection H as H. apply negb_false_iff in H. now right.
    + intros _. now left.
Qed.

(** What the constructor establishes at the time of the construction:
    arrays of length 7 and 5 whose elements, the holes apart, are strings.
    An array that the settings do not give is the one of
    [src/defaults.js], as it is in the store. *)
Lemma constructor_arrays (sigma : Shared.store) (argument : Shared.reference)
    (this : Shared.PasswordToolKit) :
  Shared.constructor sigma argument = Return this ->
  Shared.defaults_intact sigma ->
  length (Shared.elements sigma (Shared.suggestions this)) = 7
  /\ Shared.everyString (Shared.elements sigma (Shared.suggestions this)) = true
  /\ length (Shared.elements sigma (Shared.qualities this)) = 5
  /\ Shared.everyString (Shared.elements sigma (Shared.qualities this)) = true.
Proof.
  unfold Shared.constructor. cbv zeta.
  set (settings := match argument with
                   | Shared.RValue VUndefined => Shared.RValue (VObject [])
                   | r => r
                   end).
  destruct (negb (String.eqb (Shared.typeof settings) "object")); [discriminate|].
  destruct (Shared.has_and_not settings "suggestions" Shared.isArray)
    as [[|]| |] eqn:S1; simpl; try discriminate.
  destruct (Shared.has_and_not settings "qualities" Shared.isArray)
    as [[|]| |] eqn:Q1; simpl; try discriminate.
  destruct (Shared.has_and_not settings "maximum" _)
    as [[|]| |] eqn:M1; simpl; try discriminate.
  destruct (Shared.has_and_not settings "suggestions"
              (fun r => Shared.everyString (Shared.elements sigma r)))
    as [[|]| |] eqn:S2; simpl; try discriminate.
  destruct (Shared.has_and_not settings "qualities"
              (fun r => Shared.everyString (Shared.elements sigma r)))
    as [[|]| |] eqn:Q2; simpl; try discriminate.
  destruct (Shared.has_and_not settings "suggestions"
              (fun r => Nat.eqb (length (Shared.elements sigma r)) 7))
    as [[|]| |] eqn:S3; simpl; try discriminate.
  destruct (Shared.has_and_not settings "qualities"
              (fun r => Nat.eqb (length (Shared.elements sigma r)) 5))
    as [[|]| |] eqn:Q3; simpl; try discriminate.
  intros H [Ds Dq]. injection H as <-. cbn [Shared.suggestions Shared.qualities].
  apply has_and_not_passes in S1, Q1, S2, Q2, S3, Q3.
  assert (Gs : length (Shared.elements sigma
                 (if Shared.ToBoolean (Shared.Get settings "suggestions")
                  then Shared.Get settings "suggestions"
                  else Shared.RArray Shared.suggestions_location)) = 7
               /\ Shared.everyString (Shared.elements sigma
                 (if Shared.ToBoolean (Shared.Get settings "suggestions")
                  then Shared.Get settings "suggestions"
                  else Shared.RArray Shared.suggestions_location)) = true).
  { destruct S1 as [E|A].
    - rewrite E. simpl. unfold Shared.suggestions_location in *.
      rewrite Ds. split; reflexivity.
    - rewrite (@isArray_truthy _ A).
      destruct S2 as [E|S2]; [rewrite E in A; discriminate A|].
      destruct S3 as [E|S3]; [rewrite E in A; discriminate A|].
      apply Nat.eqb_eq in S3. now split. }
  assert (Gq : length (Shared.elements sigma
                 (if Shared.ToBoolean (Shared.Get settings "qualities")
                  then Shared.Get settings "qualities"
                  else Shared.RArray Shared.qualities_location)) = 5
               /\ Shared.everyString (Shared.elements sigma
                 (if Shared.ToBoolean (Shared.Get settings "qualities")
                  then Shared.Get settings "qualities"
                  else Shared.RArray Shared.qualities_location)) = true).
  { destruct Q1 as [E|A].
    - rewrite E. simpl. unfold Shared.qualities_location in *.
      rewrite Dq. split; reflexivity.
    - rewrite (@isArray_truthy _ A).
      destruct Q2 as [E|Q2]; [rewrite E in A; discriminate A|].
      destruct Q3 as [E|Q3]; [rewrite E in A; discriminate A|].
      apply Nat.eqb_eq in Q3. now split. }
  tauto.
Qed.

(** X8.  [evaluate] reads within the bounds that the constructor
    enforces.  On an instance that the constructor has built in a store
    where the arrays of [src/defaults.js] are intact, and as long as the
    two arrays of the instance are as they were then and have no hole,
    [evaluate] answers every string with a quality and a suggestion that
    are strings, elements of those arrays.  (A hole, or a write by the
    caller after the construction, makes [evaluate] return [undefined]:
    [evaluate_reads_holes].) *)
Theorem evaluate_answers_from_instance (sigma : Shared.store)
    (argument : Shared.reference) (this : Shared.PasswordToolKit)
    (s : js_string) :
  Shared.constructor sigma argument = Return this ->
  Shared.defaults_intact sigma ->
  Shared.dense (Shared.elements sigma (Shared.suggestions this)) = true ->
  Shared.dense (Shared.elements sigma (Shared.qualities this)) = true ->
  exists e q sg,
    Shared.evaluate sigma this (VString s) = Return e
    /\ Toolkit.quality e = VString q
    /\ In (Some (VString q)) (Shared.elements sigma (Shared.qualities this))
    /\ Toolkit.suggestion e = VString sg
    /\ In (Some (VString sg)) (Shared.elements sigma (Shared.suggestions this)).
Proof.
  intros Hthis Hdef Ds Dq.
  destruct (@constructor_arrays sigma argument this Hthis Hdef) as (Ls & Es & Lq & Eq).
  destruct (evaluate_row s) as (row & Hin & _ & Heval).
  rewrite Heval.
  assert (G : forall lvl q sg, q < 5 -> sg < 7 ->
            exists q' sg',
              Toolkit.quality (Shared.evaluation sigma this lvl q sg) = VString q'
              /\ In (Some (VString q')) (Shared.elements sigma (Shared.qualities this))
              /\ Toolkit.suggestion (Shared.evaluation sigma this lvl q sg) = VString sg'
              /\ In (Some (VString sg')) (Shared.elements sigma (Shared.suggestions this))).
  { intros lvl q sg Hq Hsg.
    destruct (@dense_at_index (Shared.elements sigma (Shared.qualities this)) q Dq Eq)
      as (q' & Q1 & Q2); [lia|].
    destruct (@dense_at_index (Shared.elements sigma (Shared.suggestions this)) sg Ds Es)
      as (sg' & S1 & S2); [lia|].
    now exists q', sg'. }
  unfold rows in Hin. cbn [In] in Hin.
  destruct Hin as [<-|[<-|[<-|[<-|[<-|[<-|[<-|[]]]]]]]];
    eexists;
    match goal with
    | |- exists q sg, Return (Shared.read_row _ _ (?l, ?q0, ?s0)) = _ /\ _ =>
        destruct (G l q0 s0) as (q' & sg' & HG); [lia|lia|];
        exists q', sg'; split; [reflexivity|exact HG]
    end.
Qed.

Lemma evaluate_answers_from_instance_witness :
  let array :=
    map (fun s => Some (VString (str s)))
        (["one"; "two"; "three"; "four"; "five"; "six"; "seven"])%string in
  let sigma := Shared.initial ++ [array] in
  let this := {| Shared.suggestions := Shared.RArray 2;
                 Shared.qualities := Shared.RArray Shared.qualities_location;
                 Shared.maximum := 30%float |} in
  exists e q sg,
    Shared.evaluate sigma this (VString (str "abc")) = Return e
    /\ Toolkit.quality e = VString q
    /\ In (Some (VString q)) (Shared.elements sigma (Shared.qualities this))
    /\ Toolkit.suggestion e = VString sg
    /\ In (Some (VString sg)) (Shared.elements sigma (Shared.suggestions this)).
Proof.
  apply (@evaluate_answers_from_instance
           (Shared.initial
            ++ [map (fun s => Some (VString (str s)))
                    (["one"; "two"; "three"; "four"; "five"; "six"; "seven"])%string])
           (Shared.RObject [("suggestions"%string, Shared.RArray 2)])
           {| Shared.suggestions := Shared.RArray 2;
              Shared.qualities := Shared.RArray Shared.qualities_location;
              Shared.maximum := 30%float |}
           (str "abc")).
  - reflexivity.
  - split; reflexivity.
  - reflexivity.
  - reflexivity.
Defined.

End SharedFacts.
